(** * python-seawater: the EOS-80 functions of [seawater/sea-tmp.py] and the
      derived quantities of [seawater/extras/sw_extras.py]

    The two Python modules are embedded shallowly.  A Python function body is
    a term of a small state-and-error monad: the state is the frame of local
    variables of the running call, the errors are the Python exceptions the
    bodies can raise, and the module namespace is read-only context.  Names
    are resolved the way CPython resolves them: a name that the function
    binds (a parameter or the target of an assignment) is a local for the
    whole body, every other name is looked up in the module namespace.

    Numbers are kept abstract behind the interface [Float]; it is
    instantiated twice, with the reals (for the algebra of the formulas) and
    with IEEE-754 binary64 (for what the interpreter really computes). *)

From Stdlib Require Import ZArith List String Bool Reals Lra Lia.
From Stdlib Require Import Floats.SpecFloat.
From stdpp Require Import base option list gmap strings.

Set Warnings "-uniform-inheritance,-register-all".
Open Scope string_scope.

(** ** Numeric interface *)

(** The arithmetic the formulas need from a floating-point number. *)
Class Float (A : Type) := {
  of_Z : Z → A;                 (* conversion of a Python int *)
  of_decimal : Z → Z → A;       (* the literal m·10^e *)
  fadd : A → A → A;
  fsub : A → A → A;
  fmul : A → A → A;
  fdiv : A → A → A;            (* numpy's division: no exception *)
  fneg : A → A;
  fabs : A → A;
  fsign : A → A;
  fsqrt : A → A;
  flt : A → A → bool;
  feq : A → A → bool
}.

(** The elementary functions used by [pres], [dist], [sat*] and [swvel]. *)
Class Elementary (A : Type) := {
  fpi : A;
  fsin : A → A;
  fcos : A → A;
  ftanh : A → A;
  fexp : A → A;
  flog : A → A;
  fatan2 : A → A → A
}.

(** ** Source literals *)

(** A numeric literal of the source text: [35] is an int, [0.5], [1e4] and
    [-5.72466e-3] are floats, kept as mantissa and decimal exponent. *)
Inductive literal := IntLit (z : Z) | FloatLit (m e : Z).

Fixpoint uint_len (u : Decimal.uint) : nat :=
  match u with
  | Decimal.Nil => 0
  | Decimal.D0 u | Decimal.D1 u | Decimal.D2 u | Decimal.D3 u | Decimal.D4 u
  | Decimal.D5 u | Decimal.D6 u | Decimal.D7 u | Decimal.D8 u | Decimal.D9 u =>
      S (uint_len u)
  end.

Definition int_app (i : Decimal.int) (f : Decimal.uint) : Decimal.int :=
  match i with
  | Decimal.Pos u => Decimal.Pos (Decimal.app u f)
  | Decimal.Neg u => Decimal.Neg (Decimal.app u f)
  end.

Definition literal_of_number (n : Number.number) : option literal :=
  match n with
  | Number.Decimal (Decimal.Decimal i Decimal.Nil) => Some (IntLit (Z.of_int i))
  | Number.Decimal (Decimal.Decimal i f) =>
      Some (FloatLit (Z.of_int (int_app i f)) (- Z.of_nat (uint_len f)))
  | Number.Decimal (Decimal.DecimalExp i f e) =>
      Some (FloatLit (Z.of_int (int_app i f)) (Z.of_int e - Z.of_nat (uint_len f)))
  | Number.Hexadecimal _ => None
  end.

Definition number_of_literal (l : literal) : option Number.number :=
  match l with
  | IntLit z => Some (Number.Decimal (Decimal.Decimal (Z.to_int z) Decimal.Nil))
  | FloatLit m e =>
      Some (Number.Decimal (Decimal.DecimalExp (Z.to_int m) Decimal.Nil (Z.to_int e)))
  end.

Declare Scope py_scope.
Delimit Scope py_scope with py.
Number Notation literal literal_of_number number_of_literal : py_scope.

(** ** Exceptions and results *)

Inductive exn :=
  | NameError (x : string)
  | UnboundLocalError (x : string)
  | AttributeError (a : string)
  | TypeError
  | ValueError
  | ZeroDivisionError
  | IndexError.

(** [UnboundLocalError] is a subclass of [NameError]: an [except NameError]
    clause catches both. *)
Definition is_NameError (e : exn) : bool :=
  match e with
  | NameError _ | UnboundLocalError _ => true
  | _ => false
  end.

Inductive result (T : Type) := Ok (v : T) | Raise (e : exn).
Arguments Ok {T} v.
Arguments Raise {T} e.

Definition rbind {T U : Type} (r : result T) (k : T → result U) : result U :=
  match r with
  | Ok v => k v
  | Raise e => Raise e
  end.

Definition rmap {T U : Type} (f : T → U) (r : result T) : result U :=
  rbind r (λ v, Ok (f v)).

Definition of_option {T : Type} (e : exn) (o : option T) : result T :=
  match o with
  | Some v => Ok v
  | None => Raise e
  end.

Definition returns {T : Type} (r : result T) : bool :=
  match r with
  | Ok _ => true
  | Raise _ => false
  end.

(** ** Values *)

(** A numpy array of rank 0, 1 or 2 (a rank-0 array and a numpy scalar obey
    the same arithmetic and are not told apart). *)
Inductive nd (T : Type) :=
  | Sca (x : T)
  | Vec (xs : list T)
  | Mat (rows : list (list T)).
Arguments Sca {T} x.
Arguments Vec {T} xs.
Arguments Mat {T} rows.

Definition nd_map {T U : Type} (f : T → U) (a : nd T) : nd U :=
  match a with
  | Sca x => Sca (f x)
  | Vec xs => Vec (map f xs)
  | Mat rows => Mat (map (map f) rows)
  end.

Definition nd_shape {T : Type} (a : nd T) : list Z :=
  match a with
  | Sca _ => []
  | Vec xs => [Z.of_nat (length xs)]
  | Mat rows => [Z.of_nat (length rows); Z.of_nat (length (hd [] rows))]
  end.

Definition nd_flat {T : Type} (a : nd T) : list T :=
  match a with
  | Sca x => [x]
  | Vec xs => xs
  | Mat rows => concat rows
  end.

(** numpy's broadcasting of two rows: equal lengths, or one of length 1. *)
Definition bc_vec {T U V : Type} (f : T → U → V) (xs : list T) (ys : list U)
    : option (list V) :=
  if (length xs =? length ys)%nat then Some (zip_with f xs ys)
  else match xs, ys with
       | [x], _ => Some (map (f x) ys)
       | _, [y] => Some (map (λ x, f x y) xs)
       | _, _ => None
       end.

Definition bc_rows {T U V : Type} (f : T → U → V)
    (r1 : list (list T)) (r2 : list (list U)) : option (list (list V)) :=
  if (length r1 =? length r2)%nat
  then mapM (λ p : list T * list U, bc_vec f p.1 p.2) (zip r1 r2)
  else match r1, r2 with
       | [xs], _ => mapM (bc_vec f xs) r2
       | _, [ys] => mapM (λ xs, bc_vec f xs ys) r1
       | _, _ => None
       end.

Definition bc_nd {T U V : Type} (f : T → U → V) (a : nd T) (b : nd U)
    : option (nd V) :=
  match a, b with
  | Sca x, _ => Some (nd_map (f x) b)
  | _, Sca y => Some (nd_map (λ x, f x y) a)
  | Vec xs, Vec ys => Vec <$> bc_vec f xs ys
  | Vec xs, Mat r => Mat <$> mapM (bc_vec f xs) r
  | Mat r, Vec ys => Mat <$> mapM (λ xs, bc_vec f xs ys) r
  | Mat r1, Mat r2 => Mat <$> bc_rows f r1 r2
  end.

Section Values.
Context {A : Type} `{Float A}.

(** The Python objects the two modules handle.  Arrays hold float64
    elements; [VIdx], [VMask] and [VCplx] are numpy's integer, boolean and
    complex arrays.  [VModule] is an imported module object and [VFun m f]
    the callable [f] of module [m], defined outside the file. *)
Inductive value :=
  | VNone
  | VBool (b : bool)
  | VInt (z : Z)
  | VFloat (x : A)
  | VList (xs : list A)
  | VTuple (vs : list value)
  | VArr (a : nd A)
  | VIdx (ix : nd Z)
  | VMask (m : nd bool)
  | VCplx (zs : nd (A * A))
  | VModule (name : string)
  | VFun (m name : string).

Definition zero : A := of_Z 0.

Definition const (l : literal) : value :=
  match l with
  | IntLit z => VInt z
  | FloatLit m e => VFloat (of_decimal m e)
  end.

(** [True] and [False] are the ints 1 and 0 in arithmetic. *)
Definition unbool (v : value) : value :=
  match v with
  | VBool b => VInt (Z.b2z b)
  | _ => v
  end.

(** A Python scalar as a float. *)
Definition as_py (v : value) : option A :=
  match v with
  | VInt z => Some (of_Z z)
  | VFloat x => Some x
  | _ => None
  end.

(** What numpy makes of an operand that meets an array. *)
Definition as_nd (v : value) : option (nd A) :=
  match v with
  | VBool b => Some (Sca (of_Z (Z.b2z b)))
  | VInt z => Some (Sca (of_Z z))
  | VFloat x => Some (Sca x)
  | VList xs => Some (Vec xs)
  | VArr a => Some a
  | _ => None
  end.

(** A binary operator: on two ints, on two Python floats, and elementwise
    on float64 arrays. *)
Record binop := Binop {
  op_int : Z → Z → result value;
  op_py : A → A → result A;
  op_np : A → A → A
}.

Definition arith (o : binop) (v1 v2 : value) : result value :=
  match unbool v1, unbool v2 with
  | VInt a, VInt b => op_int o a b
  | VArr a, w =>
      match as_nd w with
      | Some b => of_option ValueError (VArr <$> bc_nd (op_np o) a b)
      | None => Raise TypeError
      end
  | w, VArr b =>
      match as_nd w with
      | Some a => of_option ValueError (VArr <$> bc_nd (op_np o) a b)
      | None => Raise TypeError
      end
  | w1, w2 =>
      match as_py w1, as_py w2 with
      | Some x, Some y => rmap VFloat (op_py o x y)
      | _, _ => Raise TypeError
      end
  end.

Definition add_op : binop :=
  Binop (λ a b, Ok (VInt (a + b))) (λ x y, Ok (fadd x y)) fadd.
Definition sub_op : binop :=
  Binop (λ a b, Ok (VInt (a - b))) (λ x y, Ok (fsub x y)) fsub.
Definition mul_op : binop :=
  Binop (λ a b, Ok (VInt (a * b))) (λ x y, Ok (fmul x y)) fmul.

(** [/] on two ints is the floor division of Python 2 (the file has no
    [from __future__ import division], unlike [gibbs3/isobaric.py]); on
    Python floats a zero divisor raises; numpy divides without raising. *)
Definition div_op : binop :=
  Binop (λ a b, if (b =? 0)%Z then Raise ZeroDivisionError else Ok (VInt (a / b)))
        (λ x y, if feq y zero then Raise ZeroDivisionError else Ok (fdiv x y))
        fdiv.

(** [+] also concatenates two lists and shifts an index array. *)
Definition vadd (v1 v2 : value) : result value :=
  match v1, v2 with
  | VList xs, VList ys => Ok (VList (xs ++ ys))
  | VIdx ix, VInt k => Ok (VIdx (nd_map (λ i, (i + k)%Z) ix))
  | VInt k, VIdx ix => Ok (VIdx (nd_map (λ i, (k + i)%Z) ix))
  | _, _ => arith add_op v1 v2
  end.
Definition vsub : value → value → result value := arith sub_op.
Definition vmul : value → value → result value := arith mul_op.
Definition vdiv : value → value → result value := arith div_op.

(** A unary operation: on an int, on a Python float, on an array. *)
Definition unary (fi : Z → result value) (fp : A → result A) (fn : A → A)
    (v : value) : result value :=
  match unbool v with
  | VInt z => fi z
  | VFloat x => rmap VFloat (fp x)
  | VArr a => Ok (VArr (nd_map fn a))
  | _ => Raise TypeError
  end.

Definition vneg : value → result value :=
  unary (λ z, Ok (VInt (- z))) (λ x, Ok (fneg x)) fneg.

(** The builtin [abs]. *)
Definition py_abs : value → result value :=
  unary (λ z, Ok (VInt (Z.abs z))) (λ x, Ok (fabs x)) fabs.

(** [x**2] and [x**3]: the product of two, of three factors. *)
Definition pow2 : value → result value :=
  unary (λ z, Ok (VInt (z * z))) (λ x, Ok (fmul x x)) (λ x, fmul x x).
Definition pow3 : value → result value :=
  unary (λ z, Ok (VInt (z * z * z))) (λ x, Ok (fmul (fmul x x) x))
        (λ x, fmul (fmul x x) x).

(** [x**0.5]: the square root; a negative Python number raises
    [ValueError], a negative array element becomes nan. *)
Definition half_pow (x : A) : result A :=
  if flt x zero then Raise ValueError else Ok (fsqrt x).
Definition pow_half : value → result value :=
  unary (λ z, rmap VFloat (half_pow (of_Z z))) half_pow fsqrt.

(** [a > b] and [a == b]. *)
Definition vgt (v1 v2 : value) : result value :=
  match unbool v1, unbool v2 with
  | VInt a, VInt b => Ok (VBool (b <? a)%Z)
  | VArr a, w =>
      match as_nd w with
      | Some b => of_option ValueError (VMask <$> bc_nd (λ x y, flt y x) a b)
      | None => Raise TypeError
      end
  | w, VArr b =>
      match as_nd w with
      | Some a => of_option ValueError (VMask <$> bc_nd (λ x y, flt y x) a b)
      | None => Raise TypeError
      end
  | w1, w2 =>
      match as_py w1, as_py w2 with
      | Some x, Some y => Ok (VBool (flt y x))
      | _, _ => Raise TypeError
      end
  end.

Definition veq (v1 v2 : value) : result value :=
  match unbool v1, unbool v2 with
  | VInt a, VInt b => Ok (VBool (a =? b)%Z)
  | VArr a, w =>
      match as_nd w with
      | Some b => of_option ValueError (VMask <$> bc_nd feq a b)
      | None => Ok (VBool false)
      end
  | w, VArr b =>
      match as_nd w with
      | Some a => of_option ValueError (VMask <$> bc_nd feq a b)
      | None => Ok (VBool false)
      end
  | w1, w2 =>
      match as_py w1, as_py w2 with
      | Some x, Some y => Ok (VBool (feq x y))
      | _, _ => Ok (VBool false)
      end
  end.

(** The truth value of an object, as [if] and [any] take it. *)
Definition truth_of_list (bs : list bool) : result bool :=
  match bs with
  | [] => Ok false
  | [b] => Ok b
  | _ => Raise ValueError
  end.

Definition nonzero (x : A) : bool := negb (feq x zero).

Definition truth (v : value) : result bool :=
  match v with
  | VNone => Ok false
  | VBool b => Ok b
  | VInt z => Ok (negb (z =? 0)%Z)
  | VFloat x => Ok (nonzero x)
  | VList xs => Ok (negb (bool_decide (xs = [])))
  | VTuple vs => Ok (negb (bool_decide (length vs = 0%nat)))
  | VArr a => truth_of_list (map nonzero (nd_flat a))
  | VIdx ix => truth_of_list (map (λ i, negb (i =? 0)%Z) (nd_flat ix))
  | VMask m => truth_of_list (nd_flat m)
  | VCplx zs => truth_of_list (map (λ z, nonzero z.1 || nonzero z.2) (nd_flat zs))
  | VModule _ | VFun _ _ => Ok true
  end.

(** [any(it)]: the first true item ends the iteration; an item that is a
    row of several elements has no truth value. *)
Fixpoint any_rows (rows : list (list bool)) : result bool :=
  match rows with
  | [] => Ok false
  | r :: rows' =>
      rbind (truth_of_list r) (λ b, if b then Ok true else any_rows rows')
  end.

Definition any_nd {T : Type} (p : T → bool) (a : nd T) : result bool :=
  match a with
  | Sca _ => Raise TypeError
  | Vec xs => Ok (existsb p xs)
  | Mat rows => any_rows (map (map p) rows)
  end.

Fixpoint any_values (vs : list value) : result bool :=
  match vs with
  | [] => Ok false
  | v :: vs' => rbind (truth v) (λ b, if b then Ok true else any_values vs')
  end.

Definition py_any (v : value) : result value :=
  rmap VBool
    match v with
    | VList xs => Ok (existsb nonzero xs)
    | VTuple vs => any_values vs
    | VArr a => any_nd nonzero a
    | VIdx ix => any_nd (λ i, negb (i =? 0)%Z) ix
    | VMask m => any_nd (λ b, b) m
    | VCplx zs => any_nd (λ z, nonzero z.1 || nonzero z.2) zs
    | _ => Raise TypeError
    end.

(** [max(it)] of a tuple of ints (a shape) or of a sequence of floats. *)
Fixpoint ints_of (vs : list value) : option (list Z) :=
  match vs with
  | [] => Some []
  | VInt z :: vs' => cons z <$> ints_of vs'
  | VBool b :: vs' => cons (Z.b2z b) <$> ints_of vs'
  | _ => None
  end.

Definition fmax (x y : A) : A := if flt x y then y else x.

Definition py_max (v : value) : result value :=
  match v with
  | VTuple [] | VList [] | VArr (Vec []) | VIdx (Vec []) => Raise ValueError
  | VTuple (v0 :: vs) =>
      match ints_of (v0 :: vs) with
      | Some (z :: zs) => Ok (VInt (foldl Z.max z zs))
      | _ => Raise TypeError
      end
  | VList (x :: xs) => Ok (VFloat (foldl fmax x xs))
  | VArr (Vec (x :: xs)) => Ok (VArr (Sca (foldl fmax x xs)))
  | VIdx (Vec (i :: ix)) => Ok (VInt (foldl Z.max i ix))
  | VArr (Mat _) | VIdx (Mat _) => Raise ValueError
  | _ => Raise TypeError
  end.

(** Attributes [.shape], [.ndim] and [.size] of an array; the numpy module
    has functions of these names; no other object has them. *)
Definition shape_of (v : value) : option (list Z) :=
  match v with
  | VArr a => Some (nd_shape a)
  | VIdx a => Some (nd_shape a)
  | VMask a => Some (nd_shape a)
  | VCplx a => Some (nd_shape a)
  | _ => None
  end.

Definition is_numpy (m : string) : bool := String.eqb m "numpy".

Definition getattr (v : value) (a : string) : result value :=
  match shape_of v with
  | Some sh =>
      if String.eqb a "shape" then Ok (VTuple (VInt <$> sh))
      else if String.eqb a "ndim" then Ok (VInt (Z.of_nat (length sh)))
      else if String.eqb a "size" then Ok (VInt (foldr Z.mul 1%Z sh))
      else Raise (AttributeError a)
  | None =>
      match v with
      | VModule m => if is_numpy m then Ok (VFun m a)
                     else Raise (AttributeError a)
      | _ => Raise (AttributeError a)
      end
  end.

End Values.
Arguments value A : clear implicits.
Arguments binop A : clear implicits.

(** ** Subscripts *)

Section Subscripts.
Context {A : Type} `{Float A}.

(** One subscript of [a[...]]: an index object or a slice [lo:hi]. *)
Inductive subscript :=
  | Idx (i : value A)
  | Slice (lo hi : option (value A)).

(** A Python index counts from the end when negative. *)
Definition norm_index (len : nat) (i : Z) : option nat :=
  let j := if (i <? 0)%Z then (i + Z.of_nat len)%Z else i in
  if ((0 <=? j) && (j <? Z.of_nat len))%Z then Some (Z.to_nat j) else None.

(** A slice bound is clamped to the sequence instead of raising. *)
Definition clamp_bound (len : nat) (i : Z) : nat :=
  let j := if (i <? 0)%Z then (i + Z.of_nat len)%Z else i in
  Z.to_nat (Z.min (Z.max 0 j) (Z.of_nat len)).

Definition bound (len : nat) (dflt : nat) (b : option (value A)) : result nat :=
  match b with
  | None => Ok dflt
  | Some (VInt i) => Ok (clamp_bound len i)
  | Some _ => Raise TypeError
  end.

Definition slice_list {T : Type} (lo hi : option (value A)) (xs : list T)
    : result (list T) :=
  rbind (bound (length xs) 0%nat lo) (λ l,
  rbind (bound (length xs) (length xs) hi) (λ h,
  Ok (take (h - l) (drop l xs)))).

Definition at_index {T : Type} (i : Z) (xs : list T) : result T :=
  match norm_index (length xs) i with
  | Some n => of_option IndexError (xs !! n)
  | None => Raise IndexError
  end.

Fixpoint select {T : Type} (mask : list bool) (xs : list T) : list T :=
  match mask, xs with
  | b :: mask', x :: xs' => if b then x :: select mask' xs' else select mask' xs'
  | _, _ => []
  end.

(** [xs[mask] = news]: the flagged places take the new items in order. *)
Fixpoint scatter {T : Type} (mask : list bool) (news : list T) (xs : list T)
    : list T :=
  match mask, xs with
  | b :: mask', x :: xs' =>
      if b then match news with
                | n :: news' => n :: scatter mask' news' xs'
                | [] => x :: scatter mask' [] xs'
                end
      else x :: scatter mask' news xs'
  | _, _ => xs
  end.

Definition count_true (mask : list bool) : nat := length (filter (λ b, b = true) mask).

Definition gather {T : Type} (ix : list Z) (xs : list T) : result (list T) :=
  of_option IndexError (mapM (λ i, norm_index (length xs) i ≫= λ n, xs !! n) ix).

(** Rows of a rank-2 array cut back to the shape of the mask or index. *)
Definition same_length {T U : Type} (xs : list T) (ys : list U) : bool :=
  (length xs =? length ys)%nat.

Definition getitem1 (v : value A) (s : subscript) : result (value A) :=
  match v, s with
  | VList xs, Idx (VInt i) => rmap VFloat (at_index i xs)
  | VList xs, Slice lo hi => rmap VList (slice_list lo hi xs)
  | VList _, Idx _ => Raise TypeError
  | VTuple vs, Idx (VInt i) => at_index i vs
  | VTuple vs, Slice lo hi => rmap VTuple (slice_list lo hi vs)
  | VTuple _, Idx _ => Raise TypeError
  | VArr (Sca _), _ => Raise IndexError
  | VArr (Vec xs), Idx (VInt i) => rmap (λ x, VArr (Sca x)) (at_index i xs)
  | VArr (Vec xs), Idx (VMask (Vec m)) =>
      if same_length m xs then Ok (VArr (Vec (select m xs))) else Raise IndexError
  | VArr (Vec xs), Idx (VIdx (Vec ix)) => rmap (λ ys, VArr (Vec ys)) (gather ix xs)
  | VArr (Vec xs), Slice lo hi => rmap (λ ys, VArr (Vec ys)) (slice_list lo hi xs)
  | VArr (Mat rows), Idx (VInt i) => rmap (λ r, VArr (Vec r)) (at_index i rows)
  | VArr (Mat rows), Idx (VMask (Vec m)) =>
      if same_length m rows then Ok (VArr (Mat (select m rows))) else Raise IndexError
  | VArr (Mat rows), Idx (VMask (Mat m)) =>
      if same_length (concat m) (concat rows) && same_length m rows
      then Ok (VArr (Vec (select (concat m) (concat rows)))) else Raise IndexError
  | VArr (Mat rows), Idx (VIdx (Vec ix)) => rmap (λ rs, VArr (Mat rs)) (gather ix rows)
  | VArr (Mat rows), Slice lo hi => rmap (λ rs, VArr (Mat rs)) (slice_list lo hi rows)
  | VArr _, Idx _ => Raise IndexError
  | _, _ => Raise TypeError
  end.

(** [a[s1, s2]] of a rank-2 array: [s1] picks rows, [s2] columns. *)
Definition getitem2 (v : value A) (s1 s2 : subscript) : result (value A) :=
  match v with
  | VArr (Mat rows) =>
      match s1, s2 with
      | Idx (VInt i), Idx (VInt j) =>
          rbind (at_index i rows) (λ r, rmap (λ x, VArr (Sca x)) (at_index j r))
      | Idx (VInt i), Slice lo hi =>
          rbind (at_index i rows) (λ r, rmap (λ ys, VArr (Vec ys)) (slice_list lo hi r))
      | Slice lo hi, Idx (VInt j) =>
          rbind (slice_list lo hi rows) (λ rs,
          rmap (λ ys, VArr (Vec ys))
               (foldr (λ r acc, rbind (at_index j r) (λ x, rmap (cons x) acc)) (Ok []) rs))
      | Slice lo hi, Slice lo' hi' =>
          rbind (slice_list lo hi rows) (λ rs,
          rmap (λ rs', VArr (Mat rs'))
               (foldr (λ r acc, rbind (slice_list lo' hi' r) (λ r', rmap (cons r') acc))
                      (Ok []) rs))
      | _, _ => Raise IndexError
      end
  | VArr _ => Raise IndexError
  | _ => Raise TypeError
  end.

Definition getitem (v : value A) (ss : list subscript) : result (value A) :=
  match ss with
  | [s] => getitem1 v s
  | [s1; s2] => getitem2 v s1 s2
  | _ => Raise IndexError
  end.

(** Rebuild rows of the given widths from a flat list. *)
Fixpoint unflatten {T : Type} (widths : list nat) (xs : list T) : list (list T) :=
  match widths with
  | [] => []
  | w :: widths' => take w xs :: unflatten widths' (drop w xs)
  end.

(** [a[mask] = new]: [new] is one number for all flagged places or an array
    with one item for each. *)
Definition new_items (n : nat) (new : value A) : result (list A) :=
  match as_nd new with
  | Some (Sca x) => Ok (replicate n x)
  | Some (Vec [x]) => Ok (replicate n x)
  | Some (Vec xs) => if (length xs =? n)%nat then Ok xs else Raise ValueError
  | Some (Mat _) => Raise ValueError
  | None => Raise TypeError
  end.

Definition setitem_mask (v mask new : value A) : result (value A) :=
  match v, mask with
  | VArr (Vec xs), VMask (Vec m) =>
      if same_length m xs
      then rmap (λ ns, VArr (Vec (scatter m ns xs))) (new_items (count_true m) new)
      else Raise IndexError
  | VArr (Mat rows), VMask (Mat m) =>
      if same_length (concat m) (concat rows) && same_length m rows
      then rmap (λ ns, VArr (Mat (unflatten (length <$> rows)
                                            (scatter (concat m) ns (concat rows)))))
                (new_items (count_true (concat m)) new)
      else Raise IndexError
  | VArr _, VMask _ => Raise IndexError
  | VArr _, _ => Raise IndexError
  | _, _ => Raise TypeError
  end.

End Subscripts.
Arguments subscript A : clear implicits.

(** ** The numpy functions the modules call *)

Section Numpy.
Context {A : Type} `{Float A}.

(** [np.asarray]: numbers and lists of numbers become arrays; an array is
    returned as it is; any other object is wrapped unchanged. *)
Definition asarray (v : value A) : value A :=
  match as_nd v with
  | Some a => VArr a
  | None => v
  end.

Definition np_asarray (v : value A) : result (value A) := Ok (asarray v).

(** An elementwise numpy function of one array-like argument. *)
Definition ufunc (f : A → A) (v : value A) : result (value A) :=
  match as_nd v with
  | Some a => Ok (VArr (nd_map f a))
  | None => Raise TypeError
  end.

Definition np_sqrt : value A → result (value A) := ufunc fsqrt.
Definition np_abs : value A → result (value A) := ufunc fabs.
Definition np_sign : value A → result (value A) := ufunc fsign.

(** Differences of neighbours, [xs[i+1] - xs[i]]. *)
Definition diffs {T : Type} (sub : T → T → T) (xs : list T) : list T :=
  zip_with sub (tail xs) xs.

(** [np.diff(a, axis=0)]. *)
Definition np_diff (v : value A) : result (value A) :=
  match as_nd v with
  | Some (Sca _) => Raise ValueError
  | Some (Vec xs) => Ok (VArr (Vec (diffs fsub xs)))
  | Some (Mat rows) => Ok (VArr (Mat (diffs (zip_with fsub) rows)))
  | None => Raise TypeError
  end.

(** [np.arange(start, stop, step)] of three ints. *)
Definition np_arange (start stop step : value A) : result (value A) :=
  match unbool start, unbool stop, unbool step with
  | VInt lo, VInt hi, VInt st =>
      if (st =? 0)%Z then Raise ZeroDivisionError
      else let n :=
             if (0 <? st)%Z then (- ((lo - hi) / st))%Z else (- ((hi - lo) / (- st)))%Z in
           Ok (VIdx (Vec ((λ k, (lo + k * st)%Z) <$> seqZ 0 n)))
  | _, _, _ => Raise TypeError
  end.

(** Running sums. *)
Fixpoint running {T : Type} (add : T → T → T) (acc : T) (xs : list T) : list T :=
  match xs with
  | [] => []
  | x :: xs' => add acc x :: running add (add acc x) xs'
  end.

Definition cumsum_list {T : Type} (add : T → T → T) (xs : list T) : list T :=
  match xs with
  | [] => []
  | x :: xs' => x :: running add x xs'
  end.

(** [np.cumsum(a, axis=0)]. *)
Definition np_cumsum (v : value A) : result (value A) :=
  match as_nd v with
  | Some (Sca x) => Ok (VArr (Vec [x]))
  | Some (Vec xs) => Ok (VArr (Vec (cumsum_list fadd xs)))
  | Some (Mat rows) => Ok (VArr (Mat (cumsum_list (zip_with fadd) rows)))
  | None => Raise TypeError
  end.

(** [np.vstack((a, b))]: both operands as rank-2 arrays, rows of [b] under
    the rows of [a]; the row widths must agree. *)
Definition rows_of (a : nd A) : list (list A) :=
  match a with
  | Sca x => [[x]]
  | Vec xs => [xs]
  | Mat rows => rows
  end.

Definition np_vstack (v : value A) : result (value A) :=
  match v with
  | VTuple [v1; v2] =>
      match as_nd v1, as_nd v2 with
      | Some a, Some b =>
          let r1 := rows_of a in
          let r2 := rows_of b in
          if same_length (hd [] r1) (hd [] r2) then Ok (VArr (Mat (r1 ++ r2)))
          else Raise ValueError
      | _, _ => Raise TypeError
      end
  | _ => Raise TypeError
  end.

(** The array [re + im * 1j]. *)
Definition complex_of (re im : value A) : result (value A) :=
  match as_nd re, as_nd im with
  | Some a, Some b => of_option ValueError (VCplx <$> bc_nd pair a b)
  | _, _ => Raise TypeError
  end.

Context `{Elementary A}.

Definition np_pi : value A := VFloat fpi.
Definition np_sin : value A → result (value A) := ufunc fsin.
Definition np_cos : value A → result (value A) := ufunc fcos.
Definition np_tanh : value A → result (value A) := ufunc ftanh.
Definition np_exp : value A → result (value A) := ufunc fexp.
Definition np_log : value A → result (value A) := ufunc flog.

(** [np.angle(z)]: the argument of each complex element. *)
Definition np_angle (v : value A) : result (value A) :=
  match v with
  | VCplx zs => Ok (VArr (nd_map (λ z, fatan2 z.2 z.1) zs))
  | _ => rbind (complex_of v (VFloat zero)) (λ w,
         match w with
         | VCplx zs => Ok (VArr (nd_map (λ z, fatan2 z.2 z.1) zs))
         | _ => Raise TypeError
         end)
  end.

End Numpy.

(** ** Running a function body *)

Section Frames.
Context {A : Type} `{Float A}.

(** What a module sees when one of its functions runs: the data names bound
    in its namespace, and the behaviour of the callables and modules that
    come from outside the file ([adtg], [cor], [seawater.csiro]).  The
    functions a file defines with [def], and the builtins, are bound to
    themselves. *)
Record world := World {
  globals : gmap string (value A);
  extern : string → string → list (value A) → result (value A)
}.

(** The frame of a call: the names the function binds, and the values of
    those bound so far. *)
Record frame := Frame {
  scope : list string;
  store : gmap string (value A)
}.

Definition M (T : Type) : Type := world → frame → result (T * frame).
Definition expr : Type := M (value A).
Definition stmt : Type := M unit.
Definition pyfun : Type := world → list (value A) → result (value A).

Definition ret {T : Type} (v : T) : M T := λ _ fr, Ok (v, fr).

Definition bind {T U : Type} (m : M T) (k : T → M U) : M U :=
  λ W fr, match m W fr with
          | Ok (v, fr') => k v W fr'
          | Raise e => Raise e
          end.

Definition lift {T : Type} (r : result T) : M T :=
  λ _ fr, rmap (λ v, (v, fr)) r.

Definition lookup_global (W : world) (x : string) : option (value A) :=
  globals W !! x.

Fixpoint mem (x : string) (xs : list string) : bool :=
  match xs with
  | [] => false
  | y :: xs' => String.eqb x y || mem x xs'
  end.

Definition in_scope (x : string) (fr : frame) : bool := mem x (scope fr).

(** Reading a name.  A name of the function's scope is a local: unbound, it
    raises [UnboundLocalError] whatever the module namespace holds.  Any
    other name is global: unbound, it raises [NameError]. *)
Definition rd (x : string) : expr :=
  λ W fr,
    if in_scope x fr
    then match store fr !! x with
         | Some v => Ok (v, fr)
         | None => Raise (UnboundLocalError x)
         end
    else match lookup_global W x with
         | Some v => Ok (v, fr)
         | None => Raise (NameError x)
         end.

Definition lit (l : literal) : expr := ret (const l).

(** [x = e] *)
Definition assign (x : string) (e : expr) : stmt :=
  bind e (λ v, λ _ fr, Ok (tt, Frame (scope fr) (<[x := v]> (store fr)))).

(** Operands are evaluated from left to right. *)
Definition binary (f : value A → value A → result (value A)) (e1 e2 : expr) : expr :=
  bind e1 (λ v1, bind e2 (λ v2, lift (f v1 v2))).

Definition unop (f : value A → result (value A)) (e : expr) : expr :=
  bind e (λ v, lift (f v)).

Fixpoint eval_args (es : list expr) : M (list (value A)) :=
  match es with
  | [] => ret []
  | e :: es' => bind e (λ v, bind (eval_args es') (λ vs, ret (v :: vs)))
  end.

(** A call of a function of the file, and of a builtin. *)
Definition call (f : pyfun) (es : list expr) : expr :=
  bind (eval_args es) (λ vs, λ W fr, rmap (λ v, (v, fr)) (f W vs)).

Definition builtin (f : value A → result (value A)) (e : expr) : expr := unop f e.

(** A call [f(...)] of a name the file does not define: the name is looked
    up first, then the arguments are evaluated, then the object is called. *)
Definition call_name (x : string) (es : list expr) : expr :=
  bind (rd x) (λ f, bind (eval_args es) (λ vs, λ W fr,
    match f with
    | VFun m name => rmap (λ v, (v, fr)) (extern W m name vs)
    | _ => Raise TypeError
    end)).

(** [m.f(...)] for a module [m] that is not numpy. *)
Definition call_attr (m a : string) (es : list expr) : expr :=
  bind (rd m) (λ f, bind (lift (match f with
                                | VModule name => Ok name
                                | _ => Raise (AttributeError a)
                                end)) (λ name,
  bind (eval_args es) (λ vs, λ W fr,
    rmap (λ v, (v, fr)) (extern W name a vs)))).

(** [np.a]: the name [np] must be bound to the numpy module. *)
Definition np_attr (a : string) : M unit :=
  bind (rd "np") (λ m,
    match m with
    | VModule name =>
        if is_numpy name then ret tt else lift (Raise (AttributeError a))
    | _ => lift (Raise (AttributeError a))
    end).

Definition np_const (a : string) (v : value A) : expr :=
  bind (np_attr a) (λ _, ret v).

Definition np_call (a : string) (f : value A → result (value A)) (e : expr) : expr :=
  bind (np_attr a) (λ _, unop f e).

Definition np_call3 (a : string)
    (f : value A → value A → value A → result (value A)) (e1 e2 e3 : expr) : expr :=
  bind (np_attr a) (λ _,
  bind e1 (λ v1, bind e2 (λ v2, bind e3 (λ v3, lift (f v1 v2 v3))))).

(** An argument list. *)
Definition args (e : expr) (es : list expr) : list expr := e :: es.

(** [e.a] *)
Definition attr (e : expr) (a : string) : expr := unop (λ v, getattr v a) e.

(** [(e1, e2)] *)
Definition tuple (es : list expr) : expr :=
  bind (eval_args es) (λ vs, ret (VTuple vs)).

(** Subscripts in the source: their parts are expressions. *)
Inductive esub :=
  | EIdx (e : expr)
  | ESlice (lo hi : option expr).

(** [lo:hi] and [:] *)
Definition slice (lo hi : expr) : esub := ESlice (Some lo) (Some hi).
Definition all : esub := ESlice None None.

Definition eval_opt (o : option expr) : M (option (value A)) :=
  match o with
  | Some e => bind e (λ v, ret (Some v))
  | None => ret None
  end.

Definition eval_sub (s : esub) : M (subscript A) :=
  match s with
  | EIdx e => bind e (λ v, ret (Idx v))
  | ESlice lo hi => bind (eval_opt lo) (λ l, bind (eval_opt hi) (λ h, ret (Slice l h)))
  end.

Fixpoint eval_subs (ss : list esub) : M (list (subscript A)) :=
  match ss with
  | [] => ret []
  | s :: ss' => bind (eval_sub s) (λ v, bind (eval_subs ss') (λ vs, ret (v :: vs)))
  end.

(** [e[s1, ...]] *)
Definition item (e : expr) (ss : list esub) : expr :=
  bind e (λ v, bind (eval_subs ss) (λ vs, lift (getitem v vs))).

(** [x[i] = e]: the right-hand side first, then the object, then the index;
    the name stays bound to the updated array. *)
Definition assign_item (x : string) (i e : expr) : stmt :=
  bind e (λ new, bind (rd x) (λ v, bind i (λ m,
  bind (lift (setitem_mask v m new)) (λ v',
  λ _ fr, Ok (tt, Frame (scope fr) (<[x := v']> (store fr))))))).

(** [x1, x2 = e]: as many items as targets. *)
Definition items_of (v : value A) : result (list (value A)) :=
  match v with
  | VTuple vs => Ok vs
  | VList xs => Ok (VFloat <$> xs)
  | VArr (Vec xs) => Ok ((λ x, VArr (Sca x)) <$> xs)
  | VArr (Mat rows) => Ok ((λ r, VArr (Vec r)) <$> rows)
  | _ => Raise TypeError
  end.

Definition assign_tuple (xs : list string) (e : expr) : stmt :=
  bind e (λ v, bind (lift (items_of v)) (λ vs,
    if (length vs =? length xs)%nat
    then λ _ fr, Ok (tt, Frame (scope fr) (list_to_map (zip xs vs) ∪ store fr))
    else lift (Raise ValueError))).

(** [if c: s1 else: s2] *)
Definition if_ (c : expr) (s1 s2 : stmt) : stmt :=
  bind c (λ v, bind (lift (truth v)) (λ b, if b then s1 else s2)).

Definition pass : stmt := ret tt.

(** [def f(params, opt=defaults): body], the body binding [assigned].  A
    call with too few or too many arguments raises [TypeError]. *)
Definition def (params : list string) (defaults : list (string * literal))
    (assigned : list string) (body : expr) : pyfun :=
  λ W args,
    let n := length params in
    let k := length args in
    if ((n <=? k) && (k <=? n + length defaults))%nat
    then
      let given := zip (params ++ defaults.*1) args in
      let rest := (λ d : string * literal, (d.1, const d.2))
                    <$> drop (k - n) defaults in
      rmap fst (body W (Frame (params ++ defaults.*1 ++ assigned)
                              (list_to_map (given ++ rest))))
    else Raise TypeError.

End Frames.
Arguments world A : clear implicits.
Arguments frame A : clear implicits.
Arguments pyfun A : clear implicits.

Coercion rd : string >-> expr.
Coercion lit : literal >-> expr.

Notation "a + b" := (binary vadd a b) : py_scope.
Notation "a - b" := (binary vsub a b) : py_scope.
Notation "a * b" := (binary vmul a b) : py_scope.
Notation "a / b" := (binary vdiv a b) : py_scope.
Notation "- a" := (unop vneg a) : py_scope.
Notation "a > b" := (binary vgt a b) : py_scope.
Notation "a == b" := (binary veq a b) (at level 70, no associativity) : py_scope.
Notation "a **2" := (unop pow2 a) (at level 1, format "a **2") : py_scope.
Notation "a **3" := (unop pow3 a) (at level 1, format "a **3") : py_scope.
Notation "a **0.5" := (unop pow_half a) (at level 1, format "a **0.5") : py_scope.
Notation "a **00.5" := (unop pow_half a) (at level 1, only parsing) : py_scope.
Notation "f @( x , .. , y )" := (call f (args x%py .. (args y%py nil) ..))
  (at level 1, format "f @( x ,  .. ,  y )") : py_scope.
Notation "f @@( x , .. , y )" := (call_name f (args x%py .. (args y%py nil) ..))
  (at level 1, format "f @@( x ,  .. ,  y )") : py_scope.
Notation "'tuple_(' x , .. , y )" := (tuple (args x%py .. (args y%py nil) ..))
  (at level 0, format "tuple_( x ,  .. ,  y )") : py_scope.
Notation "x ::= e" := (assign x e%py) (at level 90, no associativity) : py_scope.
Notation "s1 ;; s2" := (bind s1 (λ _, s2)) (at level 100, s2 at level 200, right associativity) : py_scope.
Notation "'return_' e" := (e%py : expr) (at level 95, only parsing) : py_scope.

(** ** [seawater/sea-tmp.py] *)

(** The bodies below follow the file statement by statement.  The file has
    no [import] and no assignment at module level: its namespace binds the
    nineteen function names and nothing else ([namespace]).  The functions
    are given here in the order of the file, except that a function comes
    after the functions of the file that it calls. *)

Module sea_tmp.
Section Functions.
Context {A : Type} {FA : Float A} {EA : Elementary A}.

(** [svel], lines 1-117. *)
Definition svel : pyfun A :=
  def ["s"; "t"; "p"] []
    ["P"; "T68"; "c00"; "c01"; "c02"; "c03"; "c04"; "c05"; "c10"; "c11"; "c12";
     "c13"; "c14"; "c20"; "c21"; "c22"; "c23"; "c24"; "c30"; "c31"; "c32"; "Cw";
     "a00"; "a01"; "a02"; "a03"; "a04"; "a10"; "a11"; "a12"; "a13"; "a14"; "a20";
     "a21"; "a22"; "a23"; "a30"; "a31"; "a32"; "A"; "b00"; "b01"; "b10"; "b11";
     "B"; "d00"; "d10"; "D"; "svel"]
  ( "P" ::= "P" / 10 ;;
    "T68" ::= "T" * "T68conv" ;;
    "c00" ::= 1402.388 ;;
    "c01" ::= 5.03711 ;;
    "c02" ::= -5.80852e-2 ;;
    "c03" ::= 3.3420e-4 ;;
    "c04" ::= -1.47800e-6 ;;
    "c05" ::= 3.1464e-9 ;;
    "c10" ::= 0.153563 ;;
    "c11" ::= 6.8982e-4 ;;
    "c12" ::= -8.1788e-6 ;;
    "c13" ::= 1.3621e-7 ;;
    "c14" ::= -6.1185e-10 ;;
    "c20" ::= 3.1260e-5 ;;
    "c21" ::= -1.7107e-6 ;;
    "c22" ::= 2.5974e-8 ;;
    "c23" ::= -2.5335e-10 ;;
    "c24" ::= 1.0405e-12 ;;
    "c30" ::= -9.7729e-9 ;;
    "c31" ::= 3.8504e-10 ;;
    "c32" ::= -2.3643e-12 ;;
    "Cw" ::= (((("c32" * "T68" + "c31") * "T68" + "c30") * "P" + (((("c24" * "T68" +
        "c23") * "T68" + "c22") * "T68" + "c21") * "T68" + "c20")) * "P" + (((("c14" *
        "T68" + "c13") * "T68" + "c12") * "T68" + "c11") * "T68" + "c10")) * "P" +
        (((("c05" * "T68" + "c04") * "T68" + "c03") * "T68" + "c02") * "T68" + "c01")
        * "T68" + "c00" ;;
    "a00" ::= 1.389 ;;
    "a01" ::= -1.262e-2 ;;
    "a02" ::= 7.164e-5 ;;
    "a03" ::= 2.006e-6 ;;
    "a04" ::= -3.21e-8 ;;
    "a10" ::= 9.4742e-5 ;;
    "a11" ::= -1.2580e-5 ;;
    "a12" ::= -6.4885e-8 ;;
    "a13" ::= 1.0507e-8 ;;
    "a14" ::= -2.0122e-10 ;;
    "a20" ::= -3.9064e-7 ;;
    "a21" ::= 9.1041e-9 ;;
    "a22" ::= -1.6002e-10 ;;
    "a23" ::= 7.988e-12 ;;
    "a30" ::= 1.100e-10 ;;
    "a31" ::= 6.649e-12 ;;
    "a32" ::= -3.389e-13 ;;
    "A" ::= (((("a32" * "T68" + "a31") * "T68" + "a30") * "P" + ((("a23" * "T68" + "a22")
        * "T68" + "a21") * "T68" + "a20")) * "P" + (((("a14" * "T68" + "a13") * "T68"
        + "a12") * "T68" + "a11") * "T68" + "a10")) * "P" + ((("a04" * "T68" + "a03")
        * "T68" + "a02") * "T68" + "a01") * "T68" + "a00" ;;
    "b00" ::= -1.922e-2 ;;
    "b01" ::= -4.42e-5 ;;
    "b10" ::= 7.3637e-5 ;;
    "b11" ::= 1.7945e-7 ;;
    "B" ::= "b00" + "b01" * "T68" + ("b10" + "b11" * "T68") * "P" ;;
    "d00" ::= 1.727e-3 ;;
    "d10" ::= -7.9836e-6 ;;
    "D" ::= "d00" + "d10" * "P" ;;
    "svel" ::= "Cw" + "A" * "S" + "B" * "S" * "S"**0.5 + "D" * "S"**2 ;;
    return_ "svel" )%py.

(** [pres], lines 119-161. *)
Definition pres : pyfun A :=
  def ["depth"; "lat"] []
    ["X"; "C1"; "pres"]
  ( "X" ::= np_call "sin" np_sin (builtin py_abs "LAT" * "DEG2RAD") ;;
    "C1" ::= 5.92E-3 + "X"**2 * 5.25E-3 ;;
    "pres" ::= (1 - "C1" - ((1 - "C1")**2 - 8.84E-6 * "DEPTH")**0.5) / 4.42E-6 ;;
    return_ "pres" )%py.

(** Lines 210-213 of [dist]: the differences of consecutive longitudes and
    their correction across the antimeridian. *)
Definition dist_dlon : stmt (A:=A) :=
  ( "dlon" ::= np_call "diff" np_diff "lon" ;;
    if_ (builtin py_any (builtin py_abs "dlon" > 180))
      ("flag" ::= builtin py_abs "dlon" > 180 ;;
       assign_item "dlon" "flag" (- np_call "sign" np_sign (item "dlon" [EIdx "flag"])
        * (360 - builtin py_abs (item "dlon" [EIdx "flag"]))))
      (pass) )%py.

(** Lines 203-208 of [dist]. *)
Definition dist_head : stmt (A:=A) :=
  ( "DEG2MIN" ::= 60 ;;
    "DEG2NM" ::= 60 ;;
    "NM2KM" ::= 1.8520 ;;
    "npositions" ::= builtin py_max (attr "lat" "shape") ;;
    "ind" ::= np_call3 "arange" np_arange 0 ("npositions" - 1) 1 )%py.

(** Lines 215-227 of [dist]. *)
Definition dist_tail : expr (A:=A) :=
  ( "latrad" ::= builtin py_abs ("lat" * "DEG2RAD") ;;
    "dep" ::= np_call "cos" np_cos ((item "latrad" [EIdx ("ind" + 1)] + item "latrad"
        [EIdx "ind"]) / 2) * "dlon" ;;
    "dlat" ::= np_call "diff" np_diff "lat" ;;
    "dist" ::= "DEG2NM" * ("dlat"**2 + "dep"**2)**0.5 ;;
    "dist" ::= "dist" * "NM2KM" ;;
    "RAD2DEG" ::= 1 / "DEG2RAD" ;;
    "phaseangle" ::= np_call "angle" np_angle (binary complex_of "dep" "dlat") * "RAD2DEG" ;;
    return_ tuple_("dist", "phaseangle") )%py.

(** [dist], lines 163-227. *)
Definition dist : pyfun A :=
  def ["lon"; "lat"] []
    ["DEG2MIN"; "DEG2NM"; "NM2KM"; "npositions"; "ind"; "dlon"; "flag";
     "latrad"; "dep"; "dlat"; "dist"; "RAD2DEG"; "phaseangle"]
  ( dist_head ;;
    dist_dlon ;;
    dist_tail )%py.

(** [satAr], lines 229-284. *)
Definition satAr : pyfun A :=
  def ["s"; "t"] []
    ["T"; "a1"; "a2"; "a3"; "a4"; "b1"; "b2"; "b3"; "lnC"; "c"]
  ( "T" ::= 273.15 + "T" * "T68conv" ;;
    "a1" ::= -173.5146 ;;
    "a2" ::= 245.4510 ;;
    "a3" ::= 141.8222 ;;
    "a4" ::= -21.8020 ;;
    "b1" ::= -0.034474 ;;
    "b2" ::= 0.014934 ;;
    "b3" ::= -0.0017729 ;;
    "lnC" ::= "a1" + "a2" * (100 / "T") + "a3" * np_call "log" np_log ("T" / 100) + "a4" *
        ("T" / 100) + "S" * ("b1" + "b2" * ("T" / 100) + "b3" * ("T" / 100)**2) ;;
    "c" ::= np_call "exp" np_exp "lnC" ;;
    return_ "c" )%py.

(** [satN2], lines 286-340. *)
Definition satN2 : pyfun A :=
  def ["s"; "t"] []
    ["T"; "a1"; "a2"; "a3"; "a4"; "b1"; "b2"; "b3"; "lnC"; "c"]
  ( "T" ::= 273.15 + "T" * "T68conv" ;;
    "a1" ::= -172.4965 ;;
    "a2" ::= 248.4262 ;;
    "a3" ::= 143.0738 ;;
    "a4" ::= -21.7120 ;;
    "b1" ::= -0.049781 ;;
    "b2" ::= 0.025018 ;;
    "b3" ::= -0.0034861 ;;
    "lnC" ::= "a1" + "a2" * (100 / "T") + "a3" * np_call "log" np_log ("T" / 100) + "a4" *
        ("T" / 100) + "S" * ("b1" + "b2" * ("T" / 100) + "b3" * ("T" / 100)**2) ;;
    "c" ::= np_call "exp" np_exp "lnC" ;;
    return_ "c" )%py.

(** [satO2], lines 342-396. *)
Definition satO2 : pyfun A :=
  def ["s"; "t"] []
    ["T"; "a1"; "a2"; "a3"; "a4"; "b1"; "b2"; "b3"; "lnC"; "c"]
  ( "T" ::= 273.15 + "T" * "T68conv" ;;
    "a1" ::= -173.4292 ;;
    "a2" ::= 249.6339 ;;
    "a3" ::= 143.3483 ;;
    "a4" ::= -21.8492 ;;
    "b1" ::= -0.033096 ;;
    "b2" ::= 0.014259 ;;
    "b3" ::= -0.0017000 ;;
    "lnC" ::= "a1" + "a2" * (100 / "T") + "a3" * np_call "log" np_log ("T" / 100) + "a4" *
        ("T" / 100) + "S" * ("b1" + "b2" * ("T" / 100) + "b3" * ("T" / 100)**2) ;;
    "c" ::= np_call "exp" np_exp "lnC" ;;
    return_ "c" )%py.

(** [smow], lines 464-512. *)
Definition smow : pyfun A :=
  def ["t"] []
    ["a0"; "a1"; "a2"; "a3"; "a4"; "a5"; "T68"; "dens"]
  ( "a0" ::= 999.842594 ;;
    "a1" ::= 6.793952e-2 ;;
    "a2" ::= -9.095290e-3 ;;
    "a3" ::= 1.001685e-4 ;;
    "a4" ::= -1.120083e-6 ;;
    "a5" ::= 6.536332e-9 ;;
    "T68" ::= "T" * "T68conv" ;;
    "dens" ::= "a0" + ("a1" + ("a2" + ("a3" + ("a4" + "a5" * "T68") * "T68") * "T68") *
        "T68") * "T68" ;;
    return_ "dens" )%py.

(** [dens0], lines 398-462. *)
Definition dens0 : pyfun A :=
  def ["s"; "t"] []
    ["T68"; "b0"; "b1"; "b2"; "b3"; "b4"; "c0"; "c1"; "c2"; "d0"; "dens"]
  ( "T68" ::= "T" * "T68conv" ;;
    "b0" ::= 8.24493e-1 ;;
    "b1" ::= -4.0899e-3 ;;
    "b2" ::= 7.6438e-5 ;;
    "b3" ::= -8.2467e-7 ;;
    "b4" ::= 5.3875e-9 ;;
    "c0" ::= -5.72466e-3 ;;
    "c1" ::= 1.0227e-4 ;;
    "c2" ::= -1.6546e-6 ;;
    "d0" ::= 4.8314e-4 ;;
    "dens" ::= smow@("T") + ("b0" + ("b1" + ("b2" + ("b3" + "b4" * "T68") * "T68") *
        "T68") * "T68") * "S" + ("c0" + ("c1" + "c2" * "T68") * "T68") * "S" *
        "S"**0.5 + "d0" * "S"**2 ;;
    return_ "dens" )%py.

(** [seck], lines 514-624. *)
Definition seck : pyfun A :=
  def ["s"; "t"] [("p", 0%py)]
    ["P"; "T68"; "h3"; "h2"; "h1"; "h0"; "AW"; "k2"; "k1"; "k0"; "BW"; "e4";
     "e3"; "e2"; "e1"; "e0"; "KW"; "j0"; "i2"; "i1"; "i0"; "SR"; "A"; "m2"; "m1";
     "m0"; "B"; "f3"; "f2"; "f1"; "f0"; "g2"; "g1"; "g0"; "K0"; "K"]
  ( "P" ::= "P" / 10.0 ;;
    "T68" ::= "T" * "T68conv" ;;
    "h3" ::= -5.77905E-7 ;;
    "h2" ::= 1.16092E-4 ;;
    "h1" ::= 1.43713E-3 ;;
    "h0" ::= 3.239908 ;;
    "AW" ::= "h0" + ("h1" + ("h2" + "h3" * "T68") * "T68") * "T68" ;;
    "k2" ::= 5.2787E-8 ;;
    "k1" ::= -6.12293E-6 ;;
    "k0" ::= 8.50935E-5 ;;
    "BW" ::= "k0" + ("k1" + "k2" * "T68") * "T68" ;;
    "e4" ::= -5.155288E-5 ;;
    "e3" ::= 1.360477E-2 ;;
    "e2" ::= -2.327105 ;;
    "e1" ::= 148.4206 ;;
    "e0" ::= 19652.21 ;;
    "KW" ::= "e0" + ("e1" + ("e2" + ("e3" + "e4" * "T68") * "T68") * "T68") * "T68" ;;
    "j0" ::= 1.91075E-4 ;;
    "i2" ::= -1.6078E-6 ;;
    "i1" ::= -1.0981E-5 ;;
    "i0" ::= 2.2838E-3 ;;
    "SR" ::= "S"**0.5 ;;
    "A" ::= "AW" + ("i0" + ("i1" + "i2" * "T68") * "T68" + "j0" * "SR") * "S" ;;
    "m2" ::= 9.1697E-10 ;;
    "m1" ::= 2.0816E-8 ;;
    "m0" ::= -9.9348E-7 ;;
    "B" ::= "BW" + ("m0" + ("m1" + "m2" * "T68") * "T68") * "S" ;;
    "f3" ::= -6.1670E-5 ;;
    "f2" ::= 1.09987E-2 ;;
    "f1" ::= -0.603459 ;;
    "f0" ::= 54.6746 ;;
    "g2" ::= -5.3009E-4 ;;
    "g1" ::= 1.6483E-2 ;;
    "g0" ::= 7.944E-2 ;;
    "K0" ::= "KW" + ("f0" + ("f1" + ("f2" + "f3" * "T68") * "T68") * "T68" + ("g0" + ("g1"
        + "g2" * "T68") * "T68") * "SR") * "S" ;;
    "K" ::= "K0" + ("A" + "B" * "P") * "P" ;;
    return_ "K" )%py.

(** Lines 680-681 of [dens]: UNESCO 1983 eqn. 7. *)
Definition dens_eqn7 : stmt (A:=A) :=
  ( "P" ::= "P" / 10.0 ;;
    "dens" ::= "densP0" / (1 - "P" / "K") )%py.

(** [dens], lines 626-682. *)
Definition dens : pyfun A :=
  def ["s"; "t"; "p"] []
    ["densP0"; "K"; "P"; "dens"]
  ( "densP0" ::= dens0@("S", "T") ;;
    "K" ::= seck@("S", "T", "P") ;;
    dens_eqn7 ;;
    return_ "dens" )%py.

(** [ptmp], lines 1110-1184. *)
Definition ptmp : pyfun A :=
  def ["s"; "t"; "p"] [("pr", 0%py)]
    ["del_P"; "del_th"; "th"; "q"; "PT"]
  ( "del_P" ::= "PR" - "P" ;;
    "del_th" ::= "del_P" * "adtg"@@("S", "T", "P") ;;
    "th" ::= "T" * "T68conv" + 0.5 * "del_th" ;;
    "q" ::= "del_th" ;;
    "del_th" ::= "del_P" * "adtg"@@("S", "th" / "T68conv", "P" + 0.5 * "del_P") ;;
    "th" ::= "th" + (1 - 1 / (2)**00.5) * ("del_th" - "q") ;;
    "q" ::= (2 - (2)**0.5) * "del_th" + (-2 + 3 / (2)**0.5) * "q" ;;
    "del_th" ::= "del_P" * "adtg"@@("S", "th" / "T68conv", "P" + 0.5 * "del_P") ;;
    "th" ::= "th" + (1 + 1 / (2)**0.5) * ("del_th" - "q") ;;
    "q" ::= (2 + (2)**0.5) * "del_th" + (-2 - 3 / (2)**0.5) * "q" ;;
    "del_th" ::= "del_P" * "adtg"@@("S", "th" / "T68conv", "P" + "del_P") ;;
    "PT" ::= ("th" + ("del_th" - 2 * "q") / 6) / "T68conv" ;;
    return_ "PT" )%py.

(** [pden], lines 684-735. *)
Definition pden : pyfun A :=
  def ["s"; "t"; "p"] [("pr", 0%py)]
    ["PT"; "pden"]
  ( "PT" ::= ptmp@("S", "T", "P", "PR") ;;
    "pden" ::= dens@("S", "PT", "PR") ;;
    return_ "pden" )%py.

(** [svan], lines 737-793. *)
Definition svan : pyfun A :=
  def ["s"; "t"] [("p", 0%py)]
    ["svan"]
  ( "svan" ::= 1 / dens@("S", "T", "P") - 1 / dens@(35, 0.0, "P") ;;
    return_ "svan" )%py.

(** [gpan], lines 795-865. *)
Definition gpan : pyfun A :=
  def ["s"; "t"; "p"] []
    ["db2Pascal"; "m"; "n"; "svn"; "mean_svan"; "top"; "delta_ga"; "ga"]
  ( "db2Pascal" ::= 1e4 ;;
    if_ (attr "P" "ndim" == 1)
      ("m" ::= attr "P" "size")
      (assign_tuple ["m"; "n"] (attr "P" "shape")) ;;
    "svn" ::= svan@("S", "T", "P") ;;
    "mean_svan" ::= 0.5 * (item "svn" [slice 1 "m"; all] + item "svn" [slice 0 ("m" - 1);
        all]) ;;
    if_ ("n" == 1)
      ("top" ::= item "svn" [EIdx 0; EIdx 0] * item "P" [EIdx 0; EIdx 0] *
        "db2Pascal")
      ("top" ::= item "svn" [EIdx 0; all] * item "P" [EIdx 0; all] * "db2Pascal") ;;
    "delta_ga" ::= "mean_svan" * np_call "diff" np_diff "P" * "db2Pascal" ;;
    "ga" ::= np_call "cumsum" np_cumsum (np_call "vstack" np_vstack tuple_("top",
        "delta_ga")) ;;
    return_ "ga" )%py.

(** [gvel], lines 867-928. *)
Definition gvel : pyfun A :=
  def ["ga"; "lon"; "lat"] []
    ["dista"; "phase"; "distm"; "m"; "n"; "f"; "lf"; "vel"]
  ( assign_tuple ["dista"; "phase"] (dist@("lon", "lat")) ;;
    "distm" ::= 1000.0 * "dista" ;;
    assign_tuple ["m"; "n"] (attr "ga" "shape") ;;
    "f" ::= "cor"@@((item "lat" [slice 0 ("n" - 1)] + item "lat" [slice 1 "n"]) / 2) ;;
    "lf" ::= "f" * "distm" ;;
    "vel" ::= - (item "ga" [all; slice 1 "n"] - item "ga" [all; slice 0 ("n" - 1)]) / "LF" ;;
    return_ "vel" )%py.

(** [gvel2], lines 930-979. *)
Definition gvel2 : pyfun A :=
  def ["ga"; "dist"; "lat"] []
    ["distm"; "m"; "n"; "f"; "lf"; "vel"]
  ( "distm" ::= 1000.0 * "dista" ;;
    assign_tuple ["m"; "n"] (attr "ga" "shape") ;;
    "f" ::= "cor"@@((item "lat" [slice 0 ("n" - 1)] + item "lat" [slice 1 "n"]) / 2) ;;
    "lf" ::= "f" * "distm" ;;
    "vel" ::= - (item "ga" [all; slice 1 "n"] - item "ga" [all; slice 0 ("n" - 1)]) / "LF" ;;
    return_ "vel" )%py.

(** [cp], lines 981-1108. *)
Definition cp : pyfun A :=
  def ["s"; "t"; "p"] []
    ["P"; "T68"; "c0"; "c1"; "c2"; "c3"; "c4"; "a0"; "a1"; "a2"; "b0"; "b1";
     "b2"; "Cpst0"; "a3"; "a4"; "b3"; "b4"; "del_Cp0t0"; "d0"; "d1"; "d2"; "d3";
     "d4"; "e0"; "e1"; "e2"; "f0"; "f1"; "f2"; "f3"; "g0"; "h0"; "h1"; "h2";
     "j1"; "S3_2"; "del_Cpstp"; "cp"]
  ( "P" ::= "P" / 10 ;;
    "T68" ::= "T" * "T68conv" ;;
    "c0" ::= 4217.4 ;;
    "c1" ::= -3.720283 ;;
    "c2" ::= 0.1412855 ;;
    "c3" ::= -2.654387e-3 ;;
    "c4" ::= 2.093236e-5 ;;
    "a0" ::= -7.64357 ;;
    "a1" ::= 0.1072763 ;;
    "a2" ::= -1.38385e-3 ;;
    "b0" ::= 0.1770383 ;;
    "b1" ::= -4.07718e-3 ;;
    "b2" ::= 5.148e-5 ;;
    "Cpst0" ::= ((("c4" * "T68" + "c3") * "T68" + "c2") * "T68" + "c1") * "T68" + "c0" +
        ("a0" + "a1" * "T68" + "a2" * "T68"**2) * "S" + ("b0" + "b1" * "T68" + "b2" *
        "T68"**2) * "S" * "S"**0.5 ;;
    "a0" ::= -4.9592e-1 ;;
    "a1" ::= 1.45747e-2 ;;
    "a2" ::= -3.13885e-4 ;;
    "a3" ::= 2.0357e-6 ;;
    "a4" ::= 1.7168e-8 ;;
    "b0" ::= 2.4931e-4 ;;
    "b1" ::= -1.08645e-5 ;;
    "b2" ::= 2.87533e-7 ;;
    "b3" ::= -4.0027e-9 ;;
    "b4" ::= 2.2956e-11 ;;
    "c0" ::= -5.422e-8 ;;
    "c1" ::= 2.6380e-9 ;;
    "c2" ::= -6.5637e-11 ;;
    "c3" ::= 6.136e-13 ;;
    "del_Cp0t0" ::= ((((("c3" * "T68" + "c2") * "T68" + "c1") * "T68" + "c0") * "P" +
        (((("b4" * "T68" + "b3") * "T68" + "b2") * "T68" + "b1") * "T68" + "b0")) *
        "P" + (((("a4" * "T68" + "a3") * "T68" + "a2") * "T68" + "a1") * "T68" +
        "a0")) * "P" ;;
    "d0" ::= 4.9247e-3 ;;
    "d1" ::= -1.28315e-4 ;;
    "d2" ::= 9.802e-7 ;;
    "d3" ::= 2.5941e-8 ;;
    "d4" ::= -2.9179e-10 ;;
    "e0" ::= -1.2331e-4 ;;
    "e1" ::= -1.517e-6 ;;
    "e2" ::= 3.122e-8 ;;
    "f0" ::= -2.9558e-6 ;;
    "f1" ::= 1.17054e-7 ;;
    "f2" ::= -2.3905e-9 ;;
    "f3" ::= 1.8448e-11 ;;
    "g0" ::= 9.971e-8 ;;
    "h0" ::= 5.540e-10 ;;
    "h1" ::= -1.7682e-11 ;;
    "h2" ::= 3.513e-13 ;;
    "j1" ::= -1.4300e-12 ;;
    "S3_2" ::= "S" * "S"**0.5 ;;
    "del_Cpstp" ::= ((((("d4" * "T68" + "d3") * "T68" + "d2") * "T68" + "d1") * "T68" +
        "d0") * "S" + (("e2" * "T68" + "e1") * "T68" + "e0") * "S3_2") * "P" +
        (((("f3" * "T68" + "f2") * "T68" + "f1") * "T68" + "f0") * "S" + "g0" *
        "S3_2") * "P"**2 + ((("h2" * "T68" + "h1") * "T68" + "h0") * "S" + "j1" *
        "T68" * "S3_2") * "P"**3 ;;
    "cp" ::= "Cpst0" + "del_Cp0t0" + "del_Cpstp" ;;
    return_ "cp" )%py.

(** [temp], lines 1186-1244. *)
Definition temp : pyfun A :=
  def ["s"; "pt"; "p"; "pr"] []
    ["T"]
  ( "T" ::= ptmp@("S", "PTMP", "PR", "P") ;;
    return_ "T" )%py.

(** [swvel], lines 1246-1277. *)
Definition swvel : pyfun A :=
  def ["lenth"; "depth"] []
    ["k"; "speed"]
  ( "k" ::= 2.0 * np_const "pi" np_pi / "lenth" ;;
    "speed" ::= ("g" * np_call "tanh" np_tanh ("k" * "depth") / "k")**0.5 ;;
    return_ "speed" )%py.


(** The namespace of the module as the file leaves it: no data name is
    bound. *)
Definition namespace (ext : string → string → list (value A) → result (value A))
    : world A :=
  World ∅ ext.

End Functions.
End sea_tmp.

(** ** [seawater/extras/sw_extras.py] *)

(** The module starts with [import numpy as np] and
    [import seawater.csiro as sw].  The module [seawater.csiro] is not part
    of the sources at hand: its functions are the [extern] of the world,
    [extern W "seawater.csiro" "dens"] and so on. *)

Module sw_extras.
Section Functions.
Context {A : Type} {FA : Float A}.

(** [sigma_t], lines 11-63. *)
Definition sigma_t : pyfun A :=
  def ["s"; "t"; "p"] []
    ["sgmt"]
  ( "s" ::= np_call "asarray" np_asarray "s" ;;
    "t" ::= np_call "asarray" np_asarray "t" ;;
    "p" ::= np_call "asarray" np_asarray "p" ;;
    "sgmt" ::= call_attr "sw" "dens" [("s" : expr); ("t" : expr); ("p" : expr)] - 1000.0 ;;
    return_ "sgmt" )%py.

(** [N], lines 122-165. *)
Definition N : pyfun A :=
  def ["bvfr2"] []
    ["bvfr"]
  ( "bvfr2" ::= np_call "asarray" np_asarray "bvfr2" ;;
    "bvfr" ::= np_call "sqrt" np_sqrt (np_call "abs" np_abs "bvfr2") * np_call "sign"
        np_sign "bvfr2" ;;
    return_ "bvfr" )%py.

(** [richnumb], lines 231-281. *)
Definition richnumb : pyfun A :=
  def ["n"; "s"] []
    ["n2"; "s2"; "ri"]
  ( "n" ::= np_call "asarray" np_asarray "n" ;;
    "s" ::= np_call "asarray" np_asarray "s" ;;
    "n2" ::= "n"**2 * np_call "sign" np_sign "n" ;;
    "s2" ::= "s"**2 ;;
    "ri" ::= "n2" / "s2" ;;
    return_ "ri" )%py.


Definition namespace (csiro : string → string → list (value A) → result (value A))
    : world A :=
  World (<["np" := VModule "numpy"]> (<["sw" := VModule "seawater.csiro"]> ∅)) csiro.

End Functions.
End sw_extras.

(** *** The other functions of [sw_extras.py] *)

(** [m.a], a constant of a module [m] that is not numpy ([sw.OMEGA],
    [sw.a]): the world gives it as [extern W m a []]. *)
Definition module_attr {A : Type} (m a : string) : expr (A:=A) :=
  bind (rd m) (λ v,
    match v with
    | VModule name => λ W fr, rmap (λ x, (x, fr)) (extern W name a [])
    | _ => lift (Raise (AttributeError a))
    end).

Module sw_extras_more.
Section Functions.
Context {A : Type} {FA : Float A} {EA : Elementary A}.

(** [sigmatheta], lines 65-120. *)
Definition sigmatheta : pyfun A :=
  def ["s"; "t"; "p"] [("pr", 0%py)]
    ["sgmte"]
  ( "s" ::= np_call "asarray" np_asarray "s" ;;
    "t" ::= np_call "asarray" np_asarray "t" ;;
    "p" ::= np_call "asarray" np_asarray "p" ;;
    "pr" ::= np_call "asarray" np_asarray "pr" ;;
    "sgmte" ::= call_attr "sw" "pden" [("s" : expr); ("t" : expr); ("p" : expr); ("pr" :
        expr)] - 1000.0 ;;
    return_ "sgmte" )%py.

(** [cor_beta], lines 283-331. *)
Definition cor_beta : pyfun A :=
  def ["lat"] []
    ["beta"]
  ( "lat" ::= np_call "asarray" np_asarray "lat" ;;
    "beta" ::= 2 * module_attr "sw" "OMEGA" * np_call "cos" np_cos "lat" / module_attr
        "sw" "a" ;;
    return_ "beta" )%py.

(** [inertial_period], lines 333-365. *)
Definition inertial_period : pyfun A :=
  def ["lat"] []
    ["Ti"]
  ( "lat" ::= np_call "asarray" np_asarray "lat" ;;
    "Ti" ::= 2 * np_const "pi" np_pi / call_attr "sw" "cor" [("lat" : expr)] ;;
    return_ "Ti" )%py.

(** [strat_period], lines 367-408. *)
Definition strat_period : pyfun A :=
  def ["N"] []
    ["Tn"]
  ( "N" ::= np_call "asarray" np_asarray "N" ;;
    "Tn" ::= 2 * np_const "pi" np_pi / "N" ;;
    return_ "Tn" )%py.

(** [visc], lines 410-450. *)
Definition visc : pyfun A :=
  def ["s"; "t"; "p"] []
    ["viscw"]
  ( "s" ::= np_call "asarray" np_asarray "s" ;;
    "t" ::= np_call "asarray" np_asarray "t" ;;
    "p" ::= np_call "asarray" np_asarray "p" ;;
    "viscw" ::= 1e-4 * (17.91 - 0.5381 * "t" + 0.00694 * "t"**2 + 0.02305 * "s") /
        call_attr "sw" "dens" [("s" : expr); ("t" : expr); ("p" : expr)] ;;
    return_ "viscw" )%py.

(** [tcond], lines 452-502. *)
Definition tcond : pyfun A :=
  def ["s"; "t"; "p"] []
    ["therm"]
  ( "s" ::= np_call "asarray" np_asarray "s" ;;
    "t" ::= np_call "asarray" np_asarray "t" ;;
    "p" ::= np_call "asarray" np_asarray "p" ;;
    "therm" ::= 0.001365 * (1 + 0.003 * "t" - 1.025e-5 * "t"**2 + 0.0653 * (1e-4 * "p") -
        0.00029 * "s") ;;
    "therm" ::= "therm" * 418.4 ;;
    return_ "therm" )%py.


End Functions.
End sw_extras_more.

(** *** [shear] *)

(** What [shear] takes from numpy beyond the functions above. *)
Section MoreNumpy.
Context {A : Type} {FA : Float A}.

(** [np.arange(start, stop)]: the step is 1. *)
Definition np_arange2 (start stop : value A) : result (value A) :=
  np_arange start stop (VInt 1).

(** [a[np.newaxis, :]]: a rank-1 array becomes an array of one row; a
    rank-0 array has no axis to slice.  (Of a rank-2 array it would make one
    of rank 3, which [nd] does not hold; [shear] takes it of a rank-1 array
    only.) *)
Definition newaxis_row (v : value A) : result (value A) :=
  match v with
  | VArr (Vec xs) => Ok (VArr (Mat [xs]))
  | VArr _ => Raise IndexError
  | _ => Raise TypeError
  end.

(** [np.repeat(a, k, axis=1)]: in every row, each element [k] times. *)
Definition np_repeat_axis1 (v k : value A) : result (value A) :=
  match as_nd v, unbool k with
  | Some (Mat rows), VInt n =>
      if (n <? 0)%Z then Raise ValueError
      else Ok (VArr (Mat ((λ r, concat (replicate (Z.to_nat n) <$> r)) <$> rows)))
  | Some _, VInt _ => Raise ValueError
  | _, _ => Raise TypeError
  end.

(** [a.reshape(shape)]: the elements in row-major order, cut to the new
    shape; the sizes must agree. *)
Definition np_reshape (v shape : value A) : result (value A) :=
  match v, shape with
  | VArr a, VTuple dims =>
      let xs := nd_flat a in
      match ints_of dims with
      | Some [] =>
          match xs with
          | [x] => Ok (VArr (Sca x))
          | _ => Raise ValueError
          end
      | Some [n] =>
          if (Z.of_nat (length xs) =? n)%Z then Ok (VArr (Vec xs)) else Raise ValueError
      | Some [m; n] =>
          if (Z.of_nat (length xs) =? m * n)%Z
          then Ok (VArr (Mat (unflatten (replicate (Z.to_nat m) (Z.to_nat n)) xs)))
          else Raise ValueError
      | Some _ => Raise ValueError
      | None => Raise TypeError
      end
  | VArr _, _ => Raise TypeError
  | _, _ => Raise (AttributeError "reshape")
  end.

(** [a[ix, lo:hi]] with an index array [ix]: the rows that [ix] lists, each
    cut to the slice.  Any other subscript is one of [getitem]. *)
Definition getitem_rows (v : value A) (ss : list (subscript A)) : result (value A) :=
  match v, ss with
  | VArr (Mat rows), [Idx (VIdx (Vec ix)); Slice lo hi] =>
      rbind (gather ix rows) (λ rs,
      rmap (λ rs', VArr (Mat rs'))
           (foldr (λ r acc, rbind (slice_list lo hi r) (λ r', rmap (cons r') acc))
                  (Ok []) rs))
  | _, _ => getitem v ss
  end.

Definition np_call2 (a : string) (f : value A → value A → result (value A))
    (e1 e2 : expr) : expr :=
  bind (np_attr a) (λ _, bind e1 (λ v1, bind e2 (λ v2, lift (f v1 v2)))).

(** [e[np.newaxis, :]] *)
Definition item_newaxis (e : expr) : expr :=
  bind e (λ v, bind (np_attr "newaxis") (λ _, lift (newaxis_row v))).

(** [e.reshape(s)] *)
Definition reshape (e s : expr) : expr :=
  bind e (λ v, bind s (λ sh, lift (np_reshape v sh))).

(** [e[ix, :]] *)
Definition item_rows (e : expr) (ss : list esub) : expr :=
  bind e (λ v, bind (eval_subs ss) (λ vs, lift (getitem_rows v vs))).

End MoreNumpy.

Module sw_extras_shear.
Section Functions.
Context {A : Type} {FA : Float A}.

(** Lines 214-218 of [shear]: the arguments as arrays, and a rank-1 [p]
    spread over the columns of [u]. *)
Definition shear_grid : stmt (A:=A) :=
  ( "p" ::= np_call "asarray" np_asarray "p" ;;
    "u" ::= np_call "asarray" np_asarray "u" ;;
    "v" ::= np_call "asarray" np_asarray "v" ;;
    if_ (attr "p" "ndim" == 1)
      ("p" ::= reshape (np_call2 "repeat" np_repeat_axis1 (item_newaxis "p")
                          (item (attr "u" "shape") [EIdx 1]))
                       (attr "u" "shape"))
      (pass) )%py.

(** Lines 220-229 of [shear]. *)
Definition shear_rows : expr (A:=A) :=
  ( assign_tuple ["m"; "n"] (attr "p" "shape") ;;
    "iup" ::= np_call2 "arange" np_arange2 0 ("m" - 1) ;;
    "ilo" ::= np_call2 "arange" np_arange2 1 "m" ;;
    "p_ave" ::= (item_rows "p" [EIdx "iup"; all] + item_rows "p" [EIdx "ilo"; all]) / 2.0 ;;
    "vel" ::= np_call "sqrt" np_sqrt ("u"**2 + "v"**2) ;;
    "diff_vel" ::= np_call "diff" np_diff "vel" ;;
    "diff_z" ::= np_call "diff" np_diff "p" ;;
    "shr" ::= "diff_vel" / "diff_z" ;;
    return_ tuple_("shr", "p_ave") )%py.

(** [shear], lines 167-229. *)
Definition shear : pyfun A :=
  def ["p"; "u"] [("v", 0%py)]
    ["m"; "n"; "iup"; "ilo"; "p_ave"; "vel"; "diff_vel"; "diff_z"; "shr"]
  ( shear_grid ;;
    shear_rows )%py.

End Functions.
End sw_extras_shear.

(** ** [seawater/gibbs3/isobaric.py] *)

(** The module imports [CT_from_pt] from [conversions] and the decorator
    [match_args_return] from [utilities]; neither module is among the
    sources.  The names [latentheat_melting] and [latentheat_evap_CT] are
    listed in [__all__] and defined nowhere in the file.  What follows is the
    function that the decorator receives. *)

Module isobaric.
Section Functions.
Context {A : Type} {FA : Float A}.

(** [latentheat_evap_t], lines 35-83. *)
Definition latentheat_evap_t : pyfun A :=
  def ["SA"; "t"] []
    ["CT"; "latentheat_evap_t"]
  ( "CT" ::= "CT_from_pt"@@("SA", "t") ;;
    "latentheat_evap_t" ::= "latentheat_evap_CT"@@("SA", "CT") ;;
    return_ "latentheat_evap_t" )%py.

(** The namespace after the imports of lines 17-24. *)
Definition namespace (ext : string → string → list (value A) → result (value A))
    : world A :=
  World (<["np" := VModule "numpy"]>
           (<["match_args_return" := VFun "utilities" "match_args_return"]>
              (<["CT_from_pt" := VFun "conversions" "CT_from_pt"]> ∅))) ext.

End Functions.
End isobaric.

(** ** The two number systems *)

(** Real arithmetic: the formulas as algebra.  Division by zero keeps the
    value [Rdiv] gives it and has no meaning. *)
Module Real.

Definition sign (x : R) : R :=
  if Rlt_dec 0 x then 1%R else if Rlt_dec x 0 then (-1)%R else 0%R.

Definition ltb (x y : R) : bool := if Rlt_dec x y then true else false.
Definition eqb (x y : R) : bool := if Req_dec_T x y then true else false.

Definition atan2 (y x : R) : R :=
  if Rlt_dec 0 x then atan (y / x)
  else if Rlt_dec x 0
       then if Rlt_dec y 0 then (atan (y / x) - PI)%R else (atan (y / x) + PI)%R
       else if Rlt_dec 0 y then (PI / 2)%R
            else if Rlt_dec y 0 then (- PI / 2)%R else 0%R.

#[global] Instance float : Float R := {|
  of_Z := IZR;
  of_decimal m e := (IZR m * powerRZ 10 e)%R;
  fadd := Rplus;
  fsub := Rminus;
  fmul := Rmult;
  fdiv := Rdiv;
  fneg := Ropp;
  fabs := Rabs;
  fsign := sign;
  fsqrt := sqrt;
  flt := ltb;
  feq := eqb
|}.

#[global] Instance elementary : Elementary R := {|
  fpi := PI;
  fsin := sin;
  fcos := cos;
  ftanh := tanh;
  fexp := exp;
  flog := ln;
  fatan2 := atan2
|}.

End Real.

(** IEEE-754 binary64, the float of Python and the float64 of numpy. *)
Module Binary64.

Definition prec : Z := 53.
Definition emax : Z := 1024.

Definition of_int (z : Z) : spec_float := binary_normalize prec emax z 0 false.

(** The double nearest to m·10^e: for e < 0 the quotient of two doubles is
    correctly rounded, and m and 10^(-e) are doubles for the literals of the
    sources (fewer than 16 digits, exponents above -23). *)
Definition of_dec (m e : Z) : spec_float :=
  if (0 <=? e)%Z then of_int (m * 10 ^ e)
  else SFdiv prec emax (of_int m) (of_int (10 ^ (- e))).

(** numpy's [sign]: nan for nan, 0 for both zeros, otherwise 1 or -1. *)
Definition sign (x : spec_float) : spec_float :=
  match x with
  | S754_nan => S754_nan
  | S754_zero _ => S754_zero false
  | S754_infinity s | S754_finite s _ _ => of_int (if s then -1 else 1)
  end.

Definition is_nan (x : spec_float) : bool :=
  match x with
  | S754_nan => true
  | _ => false
  end.

Definition is_inf (x : spec_float) : bool :=
  match x with
  | S754_infinity _ => true
  | _ => false
  end.

Definition is_zero (x : spec_float) : bool :=
  match x with
  | S754_zero _ => true
  | _ => false
  end.

#[global] Instance float : Float spec_float := {|
  of_Z := of_int;
  of_decimal := of_dec;
  fadd := SFadd prec emax;
  fsub := SFsub prec emax;
  fmul := SFmul prec emax;
  fdiv := SFdiv prec emax;
  fneg := SFopp;
  fabs := SFabs;
  fsign := sign;
  fsqrt := SFsqrt prec emax;
  flt := SFltb;
  feq := SFeqb
|}.

End Binary64.

(** ** Vocabulary of the statements *)

Section Vocabulary.
Context {A : Type} {FA : Float A}.

(** A world whose namespace also binds [np] to numpy, as
    [import numpy as np] would. *)
Definition with_numpy (W : world A) : world A :=
  World (<["np" := VModule "numpy"]> (globals W)) (extern W).

(** The value of local [x] after a statement has run. *)
Definition local_after (x : string) (r : result (unit * frame A)) : option (value A) :=
  match r with
  | Ok (_, fr) => store fr !! x
  | Raise _ => None
  end.

Definition raises_NameError {T : Type} (r : result T) : bool :=
  match r with
  | Ok _ => false
  | Raise e => is_NameError e
  end.

(** The exception of [max(lat.shape)], if it raises one: [lat] has no
    attribute [shape], or its shape is the empty tuple of a rank-0 array, or
    [lat] is the numpy module, whose [shape] is a function. *)
Definition max_shape_error (lat : value A) : option exn :=
  match shape_of lat with
  | Some [] => Some ValueError
  | Some (_ :: _) => None
  | None =>
      match lat with
      | VModule m => if is_numpy m then Some TypeError else Some (AttributeError "shape")
      | _ => Some (AttributeError "shape")
      end
  end.

(** A longitude difference brought back across the antimeridian. *)
Definition wrap180 (d : A) : A :=
  if flt (of_Z 180) (fabs d) then fmul (fneg (fsign d)) (fsub (of_Z 360) (fabs d))
  else d.

(** The sign-preserving square root and square. *)
Definition signed_sqrt (x : A) : A := fmul (fsqrt (fabs x)) (fsign x).
Definition signed_square (x : A) : A := fmul (fmul x x) (fsign x).

(** A float argument in one of the forms numpy takes for an array. *)
Definition float_array (v : value A) : option (nd A) :=
  match v with
  | VFloat x => Some (Sca x)
  | VList xs => Some (Vec xs)
  | VArr a => Some a
  | _ => None
  end.

(** The frame of [dens] when control reaches eqn. 7. *)
Definition eqn7_frame (s t p densP0 K P : value A) : frame A :=
  Frame ["s"; "t"; "p"; "densP0"; "K"; "P"; "dens"]
        (<["P" := P]> (<["K" := K]> (<["densP0" := densP0]>
           (<["s" := s]> (<["t" := t]> (<["p" := p]> ∅)))))).

(** The frame of [dist] when control reaches line 210. *)
Definition dlon_frame (lon lat : value A) (npositions : Z) (ind : nd Z) : frame A :=
  Frame ["lon"; "lat"; "DEG2MIN"; "DEG2NM"; "NM2KM"; "npositions"; "ind"; "dlon";
         "flag"; "latrad"; "dep"; "dlat"; "dist"; "RAD2DEG"; "phaseangle"]
        (<["ind" := VIdx ind]> (<["npositions" := VInt npositions]>
           (<["NM2KM" := VFloat (of_decimal 18520 (-4))]>
           (<["DEG2NM" := VInt 60]> (<["DEG2MIN" := VInt 60]>
           (<["lon" := lon]> (<["lat" := lat]> ∅))))))).

End Vocabulary.

(** [richnumb]'s shear argument when it is zero: the int [0], a float zero,
    or a rank-0 array holding one. *)
Definition zero_shear (v : value spec_float) : bool :=
  match v with
  | VInt z => (z =? 0)%Z
  | VFloat z | VArr (Sca z) => Binary64.is_zero z
  | _ => false
  end.

Definition nd_forall {T : Type} (p : T → bool) (a : nd T) : bool :=
  forallb p (nd_flat a).

(** A module namespace that binds no callable from outside. *)
Definition no_extern {A : Type} : string → string → list (value A) → result (value A) :=
  λ _ _ _, Raise TypeError.

(** The number a call returned, when it returned a single one. *)
Definition scalar_of {A : Type} {FA : Float A} (r : result (value A)) : option A :=
  match r with
  | Ok (VFloat x) | Ok (VArr (Sca x)) => Some x
  | _ => None
  end.

(** A [seawater.csiro] that holds the constants [OMEGA] and [a] and nothing
    else. *)
Definition csiro_constants {A : Type} {FA : Float A} (omega a : A)
    : string → string → list (value A) → result (value A) :=
  λ _ x _,
    if String.eqb x "OMEGA" then Ok (VFloat omega)
    else if String.eqb x "a" then Ok (VFloat a)
    else Raise (AttributeError x).

(** A [seawater.csiro] whose every function returns the array [a]. *)
Definition csiro_returning {A : Type} {FA : Float A} (a : nd A)
    : string → string → list (value A) → result (value A) :=
  λ _ _ _, Ok (VArr a).

(** A namespace of [sea-tmp.py] in which the four names that [temp] reads
    are bound. *)
Definition temp_globals {A : Type} {FA : Float A} (S PTMP PR P : value A) : world A :=
  World (<["S" := S]> (<["PTMP" := PTMP]> (<["PR" := PR]> (<["P" := P]> ∅)))) no_extern.

(** The frame of [shear] when its body starts. *)
Definition shear_frame {A : Type} {FA : Float A} (p u v : value A) : frame A :=
  Frame ["p"; "u"; "v"; "m"; "n"; "iup"; "ilo"; "p_ave"; "vel"; "diff_vel"; "diff_z"; "shr"]
        (<["p" := p]> (<["u" := u]> (<["v" := v]> ∅))).

Section ShearVocabulary.
Context {A : Type} {FA : Float A}.

(** The shear of a grid: the differences between consecutive rows of the
    speed [sqrt(u**2 + z**2)], over those of the pressure. *)
Definition grid_shear (P U : list (list A)) (z : A) : list (list A) :=
  zip_with (zip_with fdiv)
    (diffs (zip_with fsub) (map (map (λ x, fsqrt (fadd (fmul x x) (fmul z z)))) U))
    (diffs (zip_with fsub) P).

(** The means of every two consecutive rows. *)
Definition row_means (P : list (list A)) : list (list A) :=
  zip_with (zip_with (λ a b, fdiv (fadd a b) (of_decimal 20 (-1))))
    (take (pred (length P)) P) (drop 1 P).

(** What [shear] raises for a pressure that is a number, and for a rank-1
    pressure with a velocity of rank below 2. *)
Definition shear_rank_error (p u : nd A) : option exn :=
  match p, u with
  | Sca _, _ => Some ValueError
  | Vec _, Sca _ | Vec _, Vec _ => Some IndexError
  | _, _ => None
  end.

End ShearVocabulary.

(** * Properties *)

(** ** [sea-tmp.py] as the file stands *)

(** With the namespace the file itself sets up, a call is decided by the
    first name its body reads. *)

#[local] Transparent gmap_empty.

Section Shipped.
Context {A : Type} {FA : Float A} {EA : Elementary A}.
Variable ext : string → string → list (value A) → result (value A).

(** C1.  [dens(s, t, p)] does not return [dens0(s, t) / (1 - P/K)]: the body
    reads [S], which is neither a parameter ([s]) nor a global, and raises
    [NameError] for every argument. *)
Theorem dens_raises_NameError (s t p : value A) :
  sea_tmp.dens (sea_tmp.namespace ext) [s; t; p] = Raise (NameError "S").
Proof. reflexivity. Qed.

(** C2.  [pden(s, t, p, pr)] raises [NameError] on [S]; the composition
    [dens(s, ptmp(s, t, p, pr), pr)] raises it on [PR], inside [ptmp].
    Neither yields a value that could be compared. *)
Theorem pden_raises_NameError (s t p pr : value A) :
  sea_tmp.pden (sea_tmp.namespace ext) [s; t; p; pr] = Raise (NameError "S")
  ∧ rbind (sea_tmp.ptmp (sea_tmp.namespace ext) [s; t; p; pr])
          (λ pt, sea_tmp.dens (sea_tmp.namespace ext) [s; pt; pr])
    = Raise (NameError "PR").
Proof. split; reflexivity. Qed.

(** C3.  [temp(s, pt, p, pr)] raises [NameError] on [S] before it calls
    [ptmp]; [ptmp(s, pt, pr, p)] raises it on [PR]. *)
Theorem temp_raises_NameError (s pt p pr : value A) :
  sea_tmp.temp (sea_tmp.namespace ext) [s; pt; p; pr] = Raise (NameError "S")
  ∧ sea_tmp.ptmp (sea_tmp.namespace ext) [s; pt; pr; p] = Raise (NameError "PR").
Proof. split; reflexivity. Qed.

(** C5.  [svan(35, 0, 0)] raises [NameError] on [S] and returns nothing, as
    [svan] does for every argument, with or without the optional [p]. *)
Theorem svan_reference_raises_NameError :
  sea_tmp.svan (sea_tmp.namespace ext) [VInt 35; VInt 0; VInt 0] = Raise (NameError "S")
  ∧ (∀ s t p, sea_tmp.svan (sea_tmp.namespace ext) [s; t; p] = Raise (NameError "S"))
  ∧ (∀ s t, sea_tmp.svan (sea_tmp.namespace ext) [s; t] = Raise (NameError "S")).
Proof. repeat split; reflexivity. Qed.

(** C7.  [dist] applied to [lon = [179, -179]] never reaches the longitude
    differences: given arrays it raises [NameError] on [np] at line 208, and
    given lists it raises [AttributeError] on [lat.shape] at line 207. *)
Theorem dist_antimeridian_raises :
  sea_tmp.dist (sea_tmp.namespace ext)
    [VArr (Vec [of_Z 179; of_Z (-179)]); VArr (Vec [of_Z 0; of_Z 0])]
  = Raise (NameError "np")
  ∧ sea_tmp.dist (sea_tmp.namespace ext)
      [VList [of_Z 179; of_Z (-179)]; VList [of_Z 0; of_Z 0]]
    = Raise (AttributeError "shape").
Proof. split; reflexivity. Qed.

Lemma dist_raises (lon lat : value A) :
  sea_tmp.dist (sea_tmp.namespace ext) [lon; lat]
  = Raise (default (NameError "np") (max_shape_error lat)).
Proof.
  destruct lat as [| | | | | |a|a|a|a|m|]; try reflexivity.
  1-4: destruct a; reflexivity.
  lazy -[is_numpy]. destruct (is_numpy m); reflexivity.
Qed.

Lemma gvel_raises (ga lon lat : value A) :
  sea_tmp.gvel (sea_tmp.namespace ext) [ga; lon; lat]
  = Raise (default (NameError "np") (max_shape_error lat)).
Proof.
  destruct lat as [| | | | | |a|a|a|a|m|]; try reflexivity.
  1-4: destruct a; reflexivity.
  lazy -[is_numpy]. destruct (is_numpy m); reflexivity.
Qed.

(** C4, amended.  No function of the file returns.  Seventeen of them raise
    [NameError], or its subclass [UnboundLocalError], whatever the arguments;
    [dist] and [gvel] first evaluate [max(lat.shape)] and raise the exception
    of that expression when it has one, and [NameError] on [np] otherwise. *)
Theorem every_function_raises :
  (∀ s t p, sea_tmp.svel (sea_tmp.namespace ext) [s; t; p]
            = Raise (UnboundLocalError "P"))
  ∧ (∀ depth lat, sea_tmp.pres (sea_tmp.namespace ext) [depth; lat]
                  = Raise (NameError "np"))
  ∧ (∀ lon lat, sea_tmp.dist (sea_tmp.namespace ext) [lon; lat]
                = Raise (default (NameError "np") (max_shape_error lat)))
  ∧ (∀ s t, sea_tmp.satAr (sea_tmp.namespace ext) [s; t]
            = Raise (UnboundLocalError "T"))
  ∧ (∀ s t, sea_tmp.satN2 (sea_tmp.namespace ext) [s; t]
            = Raise (UnboundLocalError "T"))
  ∧ (∀ s t, sea_tmp.satO2 (sea_tmp.namespace ext) [s; t]
            = Raise (UnboundLocalError "T"))
  ∧ (∀ s t, sea_tmp.dens0 (sea_tmp.namespace ext) [s; t] = Raise (NameError "T"))
  ∧ (∀ t, sea_tmp.smow (sea_tmp.namespace ext) [t] = Raise (NameError "T"))
  ∧ (∀ s t p, sea_tmp.seck (sea_tmp.namespace ext) [s; t; p]
              = Raise (UnboundLocalError "P"))
  ∧ (∀ s t p, sea_tmp.dens (sea_tmp.namespace ext) [s; t; p]
              = Raise (NameError "S"))
  ∧ (∀ s t p pr, sea_tmp.pden (sea_tmp.namespace ext) [s; t; p; pr]
                 = Raise (NameError "S"))
  ∧ (∀ s t p, sea_tmp.svan (sea_tmp.namespace ext) [s; t; p]
              = Raise (NameError "S"))
  ∧ (∀ s t p, sea_tmp.gpan (sea_tmp.namespace ext) [s; t; p]
              = Raise (NameError "P"))
  ∧ (∀ ga lon lat, sea_tmp.gvel (sea_tmp.namespace ext) [ga; lon; lat]
                   = Raise (default (NameError "np") (max_shape_error lat)))
  ∧ (∀ ga d lat, sea_tmp.gvel2 (sea_tmp.namespace ext) [ga; d; lat]
                 = Raise (NameError "dista"))
  ∧ (∀ s t p, sea_tmp.cp (sea_tmp.namespace ext) [s; t; p]
              = Raise (UnboundLocalError "P"))
  ∧ (∀ s t p pr, sea_tmp.ptmp (sea_tmp.namespace ext) [s; t; p; pr]
                 = Raise (NameError "PR"))
  ∧ (∀ s pt p pr, sea_tmp.temp (sea_tmp.namespace ext) [s; pt; p; pr]
                  = Raise (NameError "S"))
  ∧ (∀ l d, sea_tmp.swvel (sea_tmp.namespace ext) [l; d] = Raise (NameError "np")).
Proof.
  repeat split; intros;
    first [ apply dist_raises | apply gvel_raises | reflexivity ].
Qed.

(** The optional parameters change nothing. *)
Lemma optional_parameters_raise :
  (∀ s t, sea_tmp.seck (sea_tmp.namespace ext) [s; t] = Raise (UnboundLocalError "P"))
  ∧ (∀ s t p, sea_tmp.pden (sea_tmp.namespace ext) [s; t; p] = Raise (NameError "S"))
  ∧ (∀ s t p, sea_tmp.ptmp (sea_tmp.namespace ext) [s; t; p] = Raise (NameError "PR")).
Proof. repeat split; reflexivity. Qed.

(** A call with the wrong number of arguments raises [TypeError] before the
    body runs. *)
Lemma arity_TypeError (s : value A) :
  sea_tmp.dens (sea_tmp.namespace ext) [s] = Raise TypeError.
Proof. reflexivity. Qed.

End Shipped.

(** C4, as stated, fails:  called with Python lists, [dist] raises
    [AttributeError] ([lat.shape], line 207), which is not a [NameError]. *)
Lemma dist_raises_AttributeError :
  sea_tmp.dist (A:=R) (sea_tmp.namespace no_extern)
    [VList [179%R; (-179)%R]; VList [0%R; 0%R]]
  = Raise (AttributeError "shape")
  ∧ raises_NameError
      (sea_tmp.dist (A:=R) (sea_tmp.namespace no_extern)
         [VList [179%R; (-179)%R]; VList [0%R; 0%R]]) = false.
Proof. split; reflexivity. Qed.

(** ** Symbolic evaluation of a body *)

Section Broadcast.
Context {T U V X : Type}.

Lemma zip_with_map_diag (f : U → V → X) (g : T → U) (h : T → V) (xs : list T) :
  zip_with f (map g xs) (map h xs) = map (λ x, f (g x) (h x)) xs.
Proof. induction xs as [|x xs IH]; [reflexivity|]. cbn. by rewrite IH. Qed.

Lemma bc_vec_diag (f : U → V → X) (g : T → U) (h : T → V) (xs : list T) :
  bc_vec f (map g xs) (map h xs) = Some (map (λ x, f (g x) (h x)) xs).
Proof.
  unfold bc_vec. rewrite !length_map, Nat.eqb_refl. by rewrite zip_with_map_diag.
Qed.

Lemma bc_rows_diag (f : U → V → X) (g : T → U) (h : T → V) (rows : list (list T)) :
  bc_rows f (map (map g) rows) (map (map h) rows)
  = Some (map (map (λ x, f (g x) (h x))) rows).
Proof.
  unfold bc_rows. rewrite !length_map, Nat.eqb_refl.
  induction rows as [|r rows IH]; [reflexivity|].
  cbn. rewrite bc_vec_diag. cbn. rewrite IH. reflexivity.
Qed.

(** Two arrays computed elementwise from one array broadcast trivially. *)
Lemma bc_nd_diag (f : U → V → X) (g : T → U) (h : T → V) (a : nd T) :
  bc_nd f (nd_map g a) (nd_map h a) = Some (nd_map (λ x, f (g x) (h x)) a).
Proof.
  destruct a as [x|xs|rows]; cbn.
  - reflexivity.
  - by rewrite bc_vec_diag.
  - by rewrite bc_rows_diag.
Qed.

Lemma bc_nd_scalar_l (f : T → U → V) (x : T) (b : nd U) :
  bc_nd f (Sca x) b = Some (nd_map (f x) b).
Proof. reflexivity. Qed.

Lemma bc_nd_scalar_r (f : T → U → V) (a : nd T) (y : U) :
  bc_nd f a (Sca y) = Some (nd_map (λ x, f x y) a).
Proof. by destruct a. Qed.

Lemma nd_map_map (f : T → U) (g : U → V) (a : nd T) :
  nd_map g (nd_map f a) = nd_map (λ x, g (f x)) a.
Proof.
  destruct a as [x|xs|rows]; cbn; [done| by rewrite map_map |].
  f_equal. rewrite map_map. apply map_ext. intros r. by rewrite map_map.
Qed.

Lemma nd_map_scalar (f : T → U) (x : T) : nd_map f (Sca x) = Sca (f x).
Proof. reflexivity. Qed.

End Broadcast.

(** The scrutinee on which a stuck [match] waits. *)
Ltac stuck_in t :=
  lazymatch t with
  | match ?x with _ => _ end => stuck_in x
  | (match ?x with _ => _ end) _ => stuck_in x
  | (match ?x with _ => _ end) _ _ => stuck_in x
  | _ => t
  end.

(** Head-reduce the left-hand side: run the body up to the next term that
    does not compute. *)
Ltac py_head :=
  lazymatch goal with
  | |- ?X = ?Y => let X' := eval lazy head in X in change (X' = Y)
  end.

(** Resolve such a term: a lookup in a closed namespace is computed, a
    broadcast is rewritten, a known result is used, anything else is split
    into its cases. *)
Ltac py_case a :=
  first [ lazymatch a with
          | lookup_global _ _ =>
              let r := eval vm_compute in a in
              lazymatch r with
              | Some _ => replace a with r by (vm_compute; reflexivity)
              | None => replace a with r by (vm_compute; reflexivity)
              end
          end
        | lazymatch a with
          | bc_nd _ _ _ =>
              first [ rewrite bc_nd_scalar_l
                    | rewrite ?nd_map_scalar, bc_nd_scalar_r
                    | rewrite ?nd_map_map, bc_nd_diag ]
          end
        | match goal with H : a = _ |- _ => rewrite H end
        | let a' := eval cbn in a in
          progress change a with a';
          first [ match goal with H : a' = _ |- _ => rewrite H end
                | destruct a' eqn:? ]
        | destruct a eqn:? ].

Ltac py_step :=
  py_head;
  lazymatch goal with
  | |- (match ?x with _ => _ end) = _ => let a := stuck_in x in py_case a
  end.

Ltac py_run_with tac :=
  repeat (py_step; try solve [tac]);
  try reflexivity; try (py_head; rewrite ?nd_map_map; reflexivity).

Ltac py_run := py_run_with fail.

#[local] Opaque bc_nd lookup_global.

(** ** [sea-tmp.py] in any namespace *)

(** Binding the missing names would not repair [dens]: [P] is assigned at
    line 680, hence local to the whole body, and read at line 679. *)

Section AnyNamespace.
Context {A : Type} {FA : Float A}.

#[local] Opaque sea_tmp.dens0 sea_tmp.seck sea_tmp.ptmp.

Lemma dens_never_returns (W : world A) (args : list (value A)) :
  returns (sea_tmp.dens W args) = false.
Proof.
  destruct args as [|s [|t [|p [|? ?]]]]; try reflexivity.
  py_run.
Qed.

Lemma dens_not_Ok (W : world A) (args : list (value A)) (v : value A) :
  sea_tmp.dens W args = Ok v → False.
Proof. intros E. pose proof (dens_never_returns W args) as N. by rewrite E in N. Qed.

#[local] Opaque sea_tmp.dens.

(** [pden] and [svan] call [dens] and share its fate. *)
Lemma pden_never_returns (W : world A) (args : list (value A)) :
  returns (sea_tmp.pden W args) = false.
Proof.
  destruct args as [|s [|t [|p [|pr [|? ?]]]]]; try reflexivity.
  all: py_run_with ltac:(exfalso; eapply dens_not_Ok; eassumption).
Qed.

Lemma svan_never_returns (W : world A) (args : list (value A)) :
  returns (sea_tmp.svan W args) = false.
Proof.
  destruct args as [|s [|t [|p [|? ?]]]]; try reflexivity.
  all: py_run_with ltac:(exfalso; eapply dens_not_Ok; eassumption).
Qed.

End AnyNamespace.

(** ** [sw_extras.py] *)

Section Extras.
Context {A : Type} {FA : Float A}.
Variable csiro : string → string → list (value A) → result (value A).

#[local] Opaque vsub.

(** [sigma_t] converts its arguments, calls [sw.dens] and subtracts 1000.0
    from what comes back. *)
Lemma sigma_t_spec (s t p : value A) :
  sw_extras.sigma_t (sw_extras.namespace csiro) [s; t; p]
  = rbind (csiro "seawater.csiro" "dens" [asarray s; asarray t; asarray p])
          (λ d, vsub d (VFloat (of_decimal 10000 (-1)))).
Proof.
  destruct (csiro "seawater.csiro" "dens" [asarray s; asarray t; asarray p])
    as [d|e] eqn:E; cbn [rbind].
  - destruct (vsub d (VFloat (of_decimal 10000 (-1)))) eqn:E'; py_run.
  - py_run.
Qed.

#[local] Transparent vsub.

(** Subtracting a Python float from an array is elementwise. *)
Lemma vsub_array_float (a : nd A) (c : A) :
  vsub (VArr a) (VFloat c) = Ok (VArr (nd_map (λ x, fsub x c) a)).
Proof. py_run. Qed.

(** [N] on a number, a list and an array of floats. *)
Lemma N_spec (v : value A) (a : nd A) :
  float_array v = Some a →
  sw_extras.N (sw_extras.namespace csiro) [v] = Ok (VArr (nd_map signed_sqrt a)).
Proof.
  destruct v; intros [= <-]; py_run.
Qed.

(** [richnumb] on floats, with a shear that is a single number. *)
Lemma richnumb_spec (n s : value A) (a : nd A) (z : A) :
  float_array n = Some a → as_nd s = Some (Sca z) →
  sw_extras.richnumb (sw_extras.namespace csiro) [n; s]
  = Ok (VArr (nd_map (λ x, fdiv (signed_square x) (fmul z z)) a)).
Proof.
  destruct n; intros [= <-]; destruct s as [| | | | | |[]| | | | |]; intros [= <-]; py_run.
Qed.

End Extras.

Section Eqn7.
Context {A : Type} {FA : Float A}.

(** Eqn. 7 on numpy operands: plain float64 arithmetic, no exception. *)
Lemma eqn7_numpy (W : world A) (s t p : value A) (d K P : A) :
  local_after "dens"
    (sea_tmp.dens_eqn7 W
       (eqn7_frame s t p (VArr (Sca d)) (VArr (Sca K)) (VArr (Sca P))))
  = Some (VArr (Sca (fdiv d (fsub (of_Z 1)
                                 (fdiv (fdiv P (of_decimal 100 (-1))) K))))).
Proof. py_run. Qed.

End Eqn7.

(** ** Facts of the two arithmetics *)

Section RealFacts.
Open Scope R_scope.

Lemma sign_cases (x : R) :
  (0 < x ∧ Real.sign x = 1) ∨ (x < 0 ∧ Real.sign x = -1) ∨ (x = 0 ∧ Real.sign x = 0).
Proof.
  unfold Real.sign.
  destruct (Rlt_dec 0 x); [left; done|].
  destruct (Rlt_dec x 0); [right; left; done|].
  right; right. split; [lra|done].
Qed.

Lemma sign_pos (x : R) : 0 < x → Real.sign x = 1.
Proof. intros ?. destruct (sign_cases x) as [[]|[[]|[]]]; lra. Qed.

Lemma sign_neg (x : R) : x < 0 → Real.sign x = -1.
Proof. intros ?. destruct (sign_cases x) as [[]|[[]|[]]]; lra. Qed.

Lemma sign_zero : Real.sign 0 = 0.
Proof. destruct (sign_cases 0) as [[]|[[]|[]]]; lra. Qed.

(** The signed square root undoes the signed square. *)
Lemma signed_sqrt_square (x : R) : signed_sqrt (signed_square x) = x.
Proof.
  unfold signed_sqrt, signed_square; cbn.
  destruct (Rtotal_order x 0) as [Hx|[->|Hx]].
  - rewrite (sign_neg x Hx).
    replace (x * x * -1) with (- (x * x)) by ring.
    assert (0 < x * x) by nra.
    rewrite sign_neg by lra. rewrite Rabs_Ropp, Rabs_pos_eq by lra.
    replace (x * x) with (- x * - x) by ring.
    rewrite sqrt_square by lra. ring.
  - rewrite sign_zero, !Rmult_0_r, Rabs_R0, sqrt_0, sign_zero. ring.
  - rewrite (sign_pos x Hx), Rmult_1_r.
    assert (0 < x * x) by nra.
    rewrite sign_pos, Rabs_pos_eq by lra.
    rewrite sqrt_square by lra. ring.
Qed.

(** The signed square undoes the signed square root. *)
Lemma signed_square_sqrt (y : R) : signed_square (signed_sqrt y) = y.
Proof.
  unfold signed_sqrt, signed_square; cbn.
  destruct (Rtotal_order y 0) as [Hy|[->|Hy]].
  - rewrite (sign_neg y Hy), Rabs_left by lra.
    assert (0 < sqrt (- y)) by (apply sqrt_lt_R0; lra).
    rewrite sign_neg by lra.
    replace (sqrt (- y) * -1 * (sqrt (- y) * -1) * -1)
      with (- (sqrt (- y) * sqrt (- y))) by ring.
    rewrite sqrt_sqrt by lra. ring.
  - rewrite sign_zero, Rabs_R0, sqrt_0, !Rmult_0_r, sign_zero. ring.
  - rewrite (sign_pos y Hy), Rabs_pos_eq, Rmult_1_r by lra.
    assert (0 < sqrt y) by (apply sqrt_lt_R0; lra).
    rewrite sign_pos by lra. rewrite sqrt_sqrt by lra. ring.
Qed.

End RealFacts.

Section Binary64Facts.
Import Binary64.


Lemma zero_squared (z : spec_float) :
  is_zero z = true → SFmul prec emax z z = S754_zero false.
Proof. destruct z as [[]| | |]; intros [=]; reflexivity. Qed.

(** A float64 divided by zero is an infinity or nan. *)
Lemma div_zero_nonfinite (y : spec_float) (b : bool) :
  is_inf (SFdiv prec emax y (S754_zero b)) || is_nan (SFdiv prec emax y (S754_zero b))
  = true.
Proof. destruct y; reflexivity. Qed.

(** [d / (1 - q / 0)] is nan or a zero. *)
Lemma eqn7_zero_modulus (d q : spec_float) (b : bool) :
  let r := SFdiv prec emax d (SFsub prec emax (of_int 1) (SFdiv prec emax q (S754_zero b))) in
  is_nan r || is_zero r = true.
Proof.
  destruct q as [[]|[]| |[] ? ?], b, d as [[]|[]| |[] ? ?]; reflexivity.
Qed.

End Binary64Facts.

Lemma nd_map_ext {T U : Type} (f g : T → U) (a : nd T) :
  (∀ x, f x = g x) → nd_map f a = nd_map g a.
Proof.
  intros E. destruct a as [x|xs|rows]; cbn; f_equal; [done| by apply map_ext |].
  apply map_ext. intros r. by apply map_ext.
Qed.

Lemma nd_forall_map {T U : Type} (p : U → bool) (f : T → U) (a : nd T) :
  (∀ x, p (f x) = true) → nd_forall p (nd_map f a) = true.
Proof.
  intros E. unfold nd_forall. apply forallb_forall. intros y Hy.
  destruct a as [x|xs|rows]; cbn in Hy.
  - destruct Hy as [<-|[]]. apply E.
  - apply in_map_iff in Hy as (x & <- & _). apply E.
  - apply in_concat in Hy as (r & Hr & Hy).
    apply in_map_iff in Hr as (r0 & <- & _).
    apply in_map_iff in Hy as (x & <- & _). apply E.
Qed.

(** ** The claims on [sw_extras.py] *)

(** C6.  [sigma_t(s, t, p)] is [sw.dens] of the arguments, converted to
    arrays, minus 1000.0; on an array the subtraction is elementwise.
    Whatever [sw.dens] raises, [sigma_t] raises. *)
Theorem sigma_t_is_dens_minus_1000 {A : Type} {FA : Float A}
    (csiro : string → string → list (value A) → result (value A))
    (s t p : value A) :
  sw_extras.sigma_t (sw_extras.namespace csiro) [s; t; p]
  = rbind (csiro "seawater.csiro" "dens" [asarray s; asarray t; asarray p])
          (λ d, vsub d (VFloat (of_decimal 10000 (-1))))
  ∧ ∀ a : nd A, vsub (VArr a) (VFloat (of_decimal 10000 (-1)))
                = Ok (VArr (nd_map (λ d, fsub d (of_decimal 10000 (-1))) a)).
Proof. split; [apply sigma_t_spec | intros a; apply vsub_array_float]. Qed.

(** The scenario of the docstring, with the densities of UNESCO 44 p. 22
    standing for what [sw.dens] returns. *)
Example sigma_t_scenario :
  let dens := [Binary64.of_dec 999842594 (-6); Binary64.of_dec 104533710972 (-8)] in
  sw_extras.sigma_t
    (sw_extras.namespace (λ _ _ _, Ok (VArr (Vec dens))))
    [VList [Binary64.of_int 0; Binary64.of_int 0];
     VList [Binary64.of_int 0; Binary64.of_int 0];
     VList [Binary64.of_int 0; Binary64.of_int 10000]]
  = Ok (VArr (Vec (map (λ d, SFsub Binary64.prec Binary64.emax d (Binary64.of_int 1000))
                       dens))).
Proof. vm_compute. reflexivity. Qed.



(** C10.  Over the reals [N] undoes the signed square [n**2 * sign(n)] that
    [richnumb] computes, and the signed square undoes [N]. *)
Theorem N_inverts_signed_square
    (csiro : string → string → list (value R) → result (value R)) (x : R) :
  sw_extras.N (sw_extras.namespace csiro) [VFloat (x * x * Real.sign x)%R]
  = Ok (VArr (Sca x))
  ∧ rbind (sw_extras.richnumb (sw_extras.namespace csiro) [VFloat x; VInt 1])
          (λ n2, sw_extras.N (sw_extras.namespace csiro) [n2])
    = Ok (VArr (Sca x))
  ∧ rbind (sw_extras.N (sw_extras.namespace csiro) [VFloat x])
          (λ n, sw_extras.richnumb (sw_extras.namespace csiro) [n; VInt 1])
    = Ok (VArr (Sca x)).
Proof.
  split; [|split].
  - rewrite (N_spec csiro (VFloat _) (Sca (x * x * Real.sign x)%R) eq_refl). cbn.
    do 3 f_equal. apply signed_sqrt_square.
  - assert (as_nd (A:=R) (VInt 1) = Some (Sca 1%R)) as H1 by reflexivity.
    rewrite (richnumb_spec csiro (VFloat x) (VInt 1) (Sca x) 1%R eq_refl H1).
    cbn [rbind nd_map].
    rewrite (N_spec csiro (VArr _) (Sca (fdiv (signed_square x) (fmul 1%R 1%R))) eq_refl).
    cbn [nd_map]. do 3 f_equal.
    replace (fdiv (signed_square x) (fmul 1%R 1%R)) with (signed_square x)
      by (cbn; field).
    apply signed_sqrt_square.
  - assert (as_nd (A:=R) (VInt 1) = Some (Sca 1%R)) as H1 by reflexivity.
    rewrite (N_spec csiro (VFloat x) (Sca x) eq_refl). cbn [rbind nd_map].
    rewrite (richnumb_spec csiro (VArr _) (VInt 1) (Sca (signed_sqrt x)) 1%R
               eq_refl H1).
    cbn [nd_map]. do 3 f_equal.
    rewrite signed_square_sqrt. cbn. field.
Qed.

(** C9, as stated, fails on its second half.  With a zero secant bulk
    modulus, eqn. 7 of [dens] yields the finite number -0.0 on numpy
    operands, and raises [ZeroDivisionError] on Python floats. *)
Lemma zero_modulus_is_finite_or_raises :
  local_after "dens"
    (sea_tmp.dens_eqn7 (sea_tmp.namespace no_extern)
       (eqn7_frame (VInt 35) (VInt 0) (VInt 10000)
          (VArr (Sca (Binary64.of_int 1028))) (VArr (Sca (Binary64.of_int 0)))
          (VArr (Sca (Binary64.of_int 10000)))))
  = Some (VArr (Sca (S754_zero true)))
  ∧ Binary64.is_inf (S754_zero true) || Binary64.is_nan (S754_zero true) = false
  ∧ sea_tmp.dens_eqn7 (sea_tmp.namespace no_extern)
      (eqn7_frame (VInt 35) (VInt 0) (VInt 10000)
         (VFloat (Binary64.of_int 1028)) (VFloat (Binary64.of_int 0))
         (VFloat (Binary64.of_int 10000)))
    = Raise ZeroDivisionError.
Proof. split; [|split]; vm_compute; reflexivity. Qed.

(** C9, amended.  [richnumb(n, s)] with floats [n] and a zero shear returns
    infinities and nans and raises nothing.  Eqn. 7 of [dens] on numpy
    operands raises nothing either, and with a zero modulus its value is nan
    or a zero. *)
Theorem degenerate_denominators
    (csiro : string → string → list (value spec_float) → result (value spec_float))
    (n s : value spec_float) (a : nd spec_float) :
  float_array n = Some a → zero_shear s = true →
  (∃ r, sw_extras.richnumb (sw_extras.namespace csiro) [n; s] = Ok (VArr r)
        ∧ nd_forall (λ x, Binary64.is_inf x || Binary64.is_nan x) r = true)
  ∧ ∀ W s' t' p' densP0 P b,
      ∃ r, local_after "dens"
             (sea_tmp.dens_eqn7 W
                (eqn7_frame s' t' p' (VArr (Sca densP0)) (VArr (Sca (S754_zero b)))
                   (VArr (Sca P))))
           = Some (VArr (Sca r))
           ∧ Binary64.is_nan r || Binary64.is_zero r = true.
Proof.
  intros Ha Hs. split.
  - assert (∃ z, as_nd s = Some (Sca z) ∧ Binary64.is_zero z = true) as (z & Hz & Z).
    { destruct s as [| |k| | | |[]| | | | |]; try discriminate Hs; cbn in Hs.
      - apply Z.eqb_eq in Hs as ->. by eexists.
      - by eexists.
      - by eexists. }
    eexists. split; [apply (richnumb_spec csiro n s a z Ha Hz)|].
    apply nd_forall_map. intros x. cbn. rewrite (zero_squared z Z).
    apply div_zero_nonfinite.
  - intros W s' t' p' densP0 P b. eexists. split; [apply eqn7_numpy|].
    apply eqn7_zero_modulus.
Qed.

Lemma degenerate_denominators_witness :
  float_array (VList [Binary64.of_int 3; Binary64.of_int 0]) =
    Some (Vec [Binary64.of_int 3; Binary64.of_int 0])
  ∧ zero_shear (VInt 0) = true
  ∧ ∃ r, sw_extras.richnumb (sw_extras.namespace no_extern)
           [VList [Binary64.of_int 3; Binary64.of_int 0]; VInt 0] = Ok (VArr r)
         ∧ nd_forall (λ x, Binary64.is_inf x || Binary64.is_nan x) r = true.
Proof.
  split; [reflexivity|]. split; [reflexivity|].
  exact (proj1 (degenerate_denominators no_extern
                  (VList [Binary64.of_int 3; Binary64.of_int 0]) (VInt 0)
                  (Vec [Binary64.of_int 3; Binary64.of_int 0]) eq_refl eq_refl)).
Defined.

(** What it returns there: an infinity for 3, nan for 0. *)
Example richnumb_zero_shear :
  sw_extras.richnumb (sw_extras.namespace no_extern)
    [VList [Binary64.of_int 3; Binary64.of_int 0]; VInt 0]
  = Ok (VArr (Vec [S754_infinity false; S754_nan])).
Proof. vm_compute. reflexivity. Qed.

(** ** The antimeridian, had numpy been imported *)

(** [dist] itself is sound but for the missing import: in a namespace that
    binds [np] to numpy, lines 210-213 replace each longitude difference of
    more than 180 degrees by [-sign(d) * (360 - |d|)]. *)

Section Select.
Context {T : Type}.

Lemma same_length_map {U : Type} (f : T → U) (xs : list T) :
  same_length (map f xs) xs = true.
Proof. unfold same_length. by rewrite length_map, Nat.eqb_refl. Qed.

Lemma length_select (p : T → bool) (xs : list T) :
  length (select (map p xs) xs) = count_true (map p xs).
Proof.
  unfold count_true. induction xs as [|x xs IH]; [reflexivity|].
  cbn. destruct (p x) eqn:E; cbn.
  - rewrite decide_True by done. cbn. by rewrite IH.
  - rewrite decide_False by done. exact IH.
Qed.

(** Writing [h] of the flagged items back in their places. *)
Lemma scatter_select (p : T → bool) (h : T → T) (xs : list T) :
  scatter (map p xs) (map h (select (map p xs) xs)) xs
  = map (λ x, if p x then h x else x) xs.
Proof.
  induction xs as [|x xs IH]; [reflexivity|].
  cbn. destruct (p x); cbn; by rewrite IH.
Qed.

Lemma existsb_false_map (p : T → bool) (h : T → T) (xs : list T) :
  existsb (λ b : bool, b) (map p xs) = false →
  map (λ x, if p x then h x else x) xs = xs.
Proof.
  induction xs as [|x xs IH]; [reflexivity|].
  cbn. destruct (p x); [discriminate|]. intros E. by rewrite (IH E).
Qed.

End Select.

Section Dlon.
Context {A : Type} {FA : Float A}.

Lemma new_items_vec (ys : list A) : new_items (length ys) (VArr (Vec ys)) = Ok ys.
Proof.
  unfold new_items. cbn. destruct ys as [|y [|y' ys]]; cbn; try reflexivity.
  by rewrite Nat.eqb_refl.
Qed.

#[local] Opaque existsb same_length new_items diffs select scatter.

Lemma dist_dlon_wraps (W : world A) (lon lat : value A) (xs : list A)
    (n : Z) (ind : nd Z) :
  lookup_global W "np" = Some (VModule "numpy") →
  float_array lon = Some (Vec xs) →
  local_after "dlon" (sea_tmp.dist_dlon W (dlon_frame lon lat n ind))
  = Some (VArr (Vec (map wrap180 (diffs fsub xs)))).
Proof.
  intros Hnp.
  pose (p := λ x : A, flt (of_Z 180) (fabs x)).
  pose (h := λ x : A, fmul (fneg (fsign x)) (fsub (of_Z 360) (fabs x))).
  change (map wrap180 (diffs fsub xs))
    with (map (λ x, if p x then h x else x) (diffs fsub xs)).
  destruct lon as [| | | |l| |[|l|]| | | | |]; intros [= <-];
    repeat py_step; py_head; rewrite ?map_map in *.
  all: try by rewrite same_length_map in Heqb0.
  all: try (change (existsb (λ b : bool, b) (map p (diffs fsub l)) = false) in Heqb;
            by rewrite (existsb_false_map p h _ Heqb)).
  all: match type of Heqr with
       | _ = ?r =>
           change (new_items (count_true (map p (diffs fsub l)))
                     (VArr (Vec (map h (select (map p (diffs fsub l))
                                               (diffs fsub l))))) = r) in Heqr
       end;
       rewrite <- (length_select p), <- (length_map h), new_items_vec in Heqr;
       first [ discriminate Heqr | injection Heqr as <- ].
  all: change (Some (VArr (Vec (scatter (map p (diffs fsub l))
                                  (map h (select (map p (diffs fsub l)) (diffs fsub l)))
                                  (diffs fsub l))))
               = Some (VArr (Vec (map (λ x, if p x then h x else x) (diffs fsub l)))));
       by rewrite scatter_select.
Qed.

(** With [np] bound and an array [lat] of rank 1, control reaches line 210
    in the frame [dlon_frame]. *)
Lemma dist_head_frame (W : world A) (lon lat : value A) (ys : list A) :
  lookup_global W "np" = Some (VModule "numpy") →
  lat = VArr (Vec ys) → ys ≠ [] →
  ∃ ind, sea_tmp.dist_head W
           (Frame ["lon"; "lat"; "DEG2MIN"; "DEG2NM"; "NM2KM"; "npositions"; "ind";
                   "dlon"; "flag"; "latrad"; "dep"; "dlat"; "dist"; "RAD2DEG";
                   "phaseangle"]
                  (<["lon" := lon]> (<["lat" := lat]> ∅)))
         = Ok (tt, dlon_frame lon lat (Z.of_nat (length ys)) ind).
Proof.
  intros Hnp -> Hys. destruct ys as [|y ys]; [done|].
  eexists. py_run.
Qed.

End Dlon.

Section Dist.
Context {A : Type} {FA : Float A} {EA : Elementary A}.

(** So, with numpy, [dist] runs lines 210-213 on that frame and goes on. *)
Lemma dist_with_numpy (W : world A) (lon : value A) (ys : list A) :
  lookup_global W "np" = Some (VModule "numpy") → ys ≠ [] →
  ∃ ind, sea_tmp.dist W [lon; VArr (Vec ys)]
         = rmap fst (bind sea_tmp.dist_dlon (λ _, sea_tmp.dist_tail) W
                       (dlon_frame lon (VArr (Vec ys)) (Z.of_nat (length ys)) ind)).
Proof.
  intros Hnp Hys.
  destruct (dist_head_frame W lon _ ys Hnp eq_refl Hys) as (ind & E).
  exists ind.
  change (sea_tmp.dist W [lon; VArr (Vec ys)])
    with (rmap fst
            (match sea_tmp.dist_head W
                     (Frame ["lon"; "lat"; "DEG2MIN"; "DEG2NM"; "NM2KM"; "npositions";
                             "ind"; "dlon"; "flag"; "latrad"; "dep"; "dlat"; "dist";
                             "RAD2DEG"; "phaseangle"]
                            (<["lon" := lon]> (<["lat" := VArr (Vec ys)]> ∅))) with
             | Ok (v, fr') => bind sea_tmp.dist_dlon (λ _, sea_tmp.dist_tail) W fr'
             | Raise e => Raise e
             end)).
  by rewrite E.
Qed.

End Dist.

(** Over the reals the correction is the formula of the docstring, and it
    maps the step of -358 degrees to +2. *)
Lemma wrap180_real (d : R) :
  (180 < Rabs d)%R → wrap180 d = (- Real.sign d * (360 - Rabs d))%R.
Proof.
  intros Hd. unfold wrap180. cbn. unfold Real.ltb.
  destruct (Rlt_dec 180 (Rabs d)); [reflexivity|contradiction].
Qed.

Example wrap180_358 : wrap180 (-179 - 179)%R = 2%R.
Proof.
  assert (Rabs (-179 - 179) = 358)%R as E by (rewrite Rabs_left; lra).
  rewrite wrap180_real by (rewrite E; lra).
  rewrite E, sign_neg by lra. lra.
Qed.

(** With [np] bound, lines 210-213 turn the longitude step of -358 degrees
    from 179 to -179 into +2. *)
Example dlon_across_antimeridian :
  local_after "dlon"
    (sea_tmp.dist_dlon (with_numpy (sea_tmp.namespace no_extern))
       (dlon_frame (VArr (Vec [Binary64.of_int 179; Binary64.of_int (-179)]))
                   (VArr (Vec [Binary64.of_int 0; Binary64.of_int 0])) 2 (Vec [0%Z])))
  = Some (VArr (Vec [Binary64.of_int 2])).
Proof. vm_compute. reflexivity. Qed.

(** * Further properties *)

#[local] Transparent existsb same_length new_items diffs select scatter vsub.
#[local] Transparent sea_tmp.dens0 sea_tmp.seck sea_tmp.ptmp sea_tmp.dens.

(** ** [sea-tmp.py]: what no namespace can repair *)

Section EveryNamespace.
Context {A : Type} {FA : Float A} {EA : Elementary A}.

(** X1.  [svel], [seck] and [cp] assign [P], and [satAr], [satN2] and
    [satO2] assign [T], on a line that reads the same name first: the name
    is local and unbound, and the call raises [UnboundLocalError] whatever
    the module namespace binds and whatever the arguments are. *)
Theorem unbound_locals_in_every_namespace (W : world A) :
  (∀ s t p, sea_tmp.svel W [s; t; p] = Raise (UnboundLocalError "P"))
  ∧ (∀ s t p, sea_tmp.seck W [s; t; p] = Raise (UnboundLocalError "P"))
  ∧ (∀ s t, sea_tmp.seck W [s; t] = Raise (UnboundLocalError "P"))
  ∧ (∀ s t p, sea_tmp.cp W [s; t; p] = Raise (UnboundLocalError "P"))
  ∧ (∀ s t, sea_tmp.satAr W [s; t] = Raise (UnboundLocalError "T"))
  ∧ (∀ s t, sea_tmp.satN2 W [s; t] = Raise (UnboundLocalError "T"))
  ∧ (∀ s t, sea_tmp.satO2 W [s; t] = Raise (UnboundLocalError "T")).
Proof. repeat split; intros; reflexivity. Qed.

Lemma svan_not_Ok (W : world A) (args : list (value A)) (v : value A) :
  sea_tmp.svan W args = Ok v → False.
Proof. intros E. pose proof (svan_never_returns W args) as N. by rewrite E in N. Qed.

#[local] Opaque sea_tmp.svan.

(** [gpan] calls [svan] before it returns anything. *)
Lemma gpan_never_returns (W : world A) (args : list (value A)) :
  returns (sea_tmp.gpan W args) = false.
Proof.
  destruct args as [|s [|t [|p [|? ?]]]]; try reflexivity.
  py_run_with ltac:(exfalso; eapply svan_not_Ok; eassumption).
Qed.

#[local] Transparent sea_tmp.svan.

(** X2.  [dens], and with it [pden], [svan] and [gpan] that call it, return
    no value in any namespace and for any argument list: [dens] reads the
    local [P] at line 679 before line 680 assigns it. *)
Theorem density_chain_never_returns (W : world A) (args : list (value A)) :
  returns (sea_tmp.dens W args) = false
  ∧ returns (sea_tmp.pden W args) = false
  ∧ returns (sea_tmp.svan W args) = false
  ∧ returns (sea_tmp.gpan W args) = false.
Proof.
  split; [apply dens_never_returns|].
  split; [apply pden_never_returns|].
  split; [apply svan_never_returns|apply gpan_never_returns].
Qed.

#[local] Opaque vadd vsub vmul vdiv pow2 pow3 pow_half vneg py_abs.

Ltac py_both := py_run; symmetry; py_run.

Lemma smow_ignores (W : world A) (t t' : value A) :
  sea_tmp.smow W [t] = sea_tmp.smow W [t'].
Proof. py_both. Qed.

#[local] Opaque sea_tmp.smow.

Lemma dens0_ignores (W : world A) (s t s' t' : value A) :
  sea_tmp.dens0 W [s; t] = sea_tmp.dens0 W [s'; t'].
Proof. py_both. Qed.

#[local] Transparent sea_tmp.smow.

Lemma ptmp_ignores (W : world A) (s t p pr s' t' p' pr' : value A) :
  sea_tmp.ptmp W [s; t; p; pr] = sea_tmp.ptmp W [s'; t'; p'; pr'].
Proof. py_both. Qed.

#[local] Transparent vadd vsub vmul vdiv pow2 pow3 pow_half vneg py_abs.

(** X3.  [smow], [dens0] and [ptmp] never read a parameter: in every
    namespace the outcome of a call, value or exception, is the same for
    all arguments, and [ptmp] without [pr] is [ptmp] with any [pr]. *)
Theorem arguments_are_ignored (W : world A) :
  (∀ t t', sea_tmp.smow W [t] = sea_tmp.smow W [t'])
  ∧ (∀ s t s' t', sea_tmp.dens0 W [s; t] = sea_tmp.dens0 W [s'; t'])
  ∧ (∀ s t p pr s' t' p' pr',
       sea_tmp.ptmp W [s; t; p; pr] = sea_tmp.ptmp W [s'; t'; p'; pr'])
  ∧ (∀ s t p s' t' p' pr',
       sea_tmp.ptmp W [s; t; p] = sea_tmp.ptmp W [s'; t'; p'; pr']).
Proof.
  split; [apply smow_ignores|]. split; [apply dens0_ignores|].
  split; [apply ptmp_ignores|].
  intros s t p s' t' p' pr'.
  change (sea_tmp.ptmp W [s; t; p]) with (sea_tmp.ptmp W [s; t; p; VInt 0]).
  apply ptmp_ignores.
Qed.

#[local] Opaque sea_tmp.ptmp.

Lemma temp_calls_ptmp (W : world A) (vS vPTMP vPR vP s pt p pr : value A) :
  lookup_global W "S" = Some vS → lookup_global W "PTMP" = Some vPTMP →
  lookup_global W "PR" = Some vPR → lookup_global W "P" = Some vP →
  sea_tmp.temp W [s; pt; p; pr] = sea_tmp.ptmp W [vS; vPTMP; vPR; vP].
Proof.
  intros HS HPT HPR HP.
  destruct (sea_tmp.ptmp W [vS; vPTMP; vPR; vP]) eqn:E; py_run.
Qed.

#[local] Transparent sea_tmp.ptmp.

(** X4.  In a namespace that binds [S], [PTMP], [PR] and [P], [temp] is
    [ptmp]: whatever is passed to either, the two calls end alike.  The
    exchange of [PR] and [P] on line 1242 changes nothing, because [ptmp]
    reads the globals and not what it is passed. *)
Theorem temp_is_ptmp_of_globals (W : world A)
    (vS vPTMP vPR vP s pt p pr s' t' p' pr' : value A) :
  lookup_global W "S" = Some vS → lookup_global W "PTMP" = Some vPTMP →
  lookup_global W "PR" = Some vPR → lookup_global W "P" = Some vP →
  sea_tmp.temp W [s; pt; p; pr] = sea_tmp.ptmp W [s'; t'; p'; pr'].
Proof.
  intros HS HPT HPR HP.
  rewrite (temp_calls_ptmp W vS vPTMP vPR vP s pt p pr HS HPT HPR HP).
  apply ptmp_ignores.
Qed.

End EveryNamespace.

Lemma temp_is_ptmp_of_globals_witness :
  sea_tmp.temp (temp_globals (VInt 35) (VInt 10) (VInt 0) (VInt 1000))
    [VNone; VNone; VNone; VNone]
  = sea_tmp.ptmp (temp_globals (VInt 35) (VInt 10) (VInt 0) (VInt 1000))
      [VFloat 35%R; VFloat 10%R; VFloat 1000%R; VFloat 0%R].
Proof.
  apply (temp_is_ptmp_of_globals
           (temp_globals (VInt 35) (VInt 10) (VInt 0) (VInt 1000))
           (VInt 35) (VInt 10) (VInt 0) (VInt 1000)); reflexivity.
Defined.

(** ** [sea-tmp.py] with numpy imported *)

Section WithNumpy.
Context {A : Type} {FA : Float A} {EA : Elementary A}.

#[local] Opaque existsb same_length new_items diffs select scatter.

Lemma dist_needs_DEG2RAD ext (lon : value A) (xs ys : list A) :
  float_array lon = Some (Vec xs) → ys ≠ [] →
  sea_tmp.dist (with_numpy (sea_tmp.namespace ext)) [lon; VArr (Vec ys)]
  = Raise (NameError "DEG2RAD").
Proof.
  intros Hlon Hys. destruct ys as [|y ys]; [done|]. clear Hys.
  pose (p := λ x : A, flt (of_Z 180) (fabs x)).
  pose (h := λ x : A, fmul (fneg (fsign x)) (fsub (of_Z 360) (fabs x))).
  destruct lon as [| | | |l| |[|l|]| | | | |]; revert Hlon; intros [= <-].
  all: repeat py_step; try reflexivity.
  all: rewrite ?map_map in *.
  all: try by rewrite same_length_map in *.
  all: match type of Heqr with
       | _ = ?r =>
           change (new_items (count_true (map p (diffs fsub l)))
                     (VArr (Vec (map h (select (map p (diffs fsub l))
                                               (diffs fsub l))))) = r) in Heqr
       end;
       rewrite <- (length_select p), <- (length_map h), new_items_vec in Heqr;
       discriminate Heqr.
Qed.

#[local] Transparent existsb same_length new_items diffs select scatter.
#[local] Opaque feq.

Lemma swvel_needs_g ext (a : nd A) (x : A) (d : value A) :
  sea_tmp.swvel (with_numpy (sea_tmp.namespace ext)) [VArr a; d] = Raise (NameError "g")
  ∧ sea_tmp.swvel (with_numpy (sea_tmp.namespace ext)) [VFloat x; d]
    = Raise (if feq x zero then ZeroDivisionError else NameError "g").
Proof.
  split.
  - py_run.
  - destruct (feq x zero) eqn:E; py_run.
Qed.

#[local] Transparent feq.

(** X5.  Adding [import numpy as np] to [sea-tmp.py] does not make it work.
    [dist], given a list or rank-1 array [lon] and a non-empty rank-1 array
    [lat], now gets past lines 207-213 and raises [NameError] on [DEG2RAD]
    at line 215; [pres] raises it on [LAT]; [swvel] raises it on [g], or
    [ZeroDivisionError] before that when [lenth] is the Python float 0. *)
Theorem numpy_alone_is_not_enough ext (lon : value A) (xs ys : list A) :
  float_array lon = Some (Vec xs) → ys ≠ [] →
  sea_tmp.dist (with_numpy (sea_tmp.namespace ext)) [lon; VArr (Vec ys)]
  = Raise (NameError "DEG2RAD")
  ∧ (∀ depth lat,
       sea_tmp.pres (with_numpy (sea_tmp.namespace ext)) [depth; lat]
       = Raise (NameError "LAT"))
  ∧ (∀ a d,
       sea_tmp.swvel (with_numpy (sea_tmp.namespace ext)) [VArr a; d]
       = Raise (NameError "g"))
  ∧ (∀ x d,
       sea_tmp.swvel (with_numpy (sea_tmp.namespace ext)) [VFloat x; d]
       = Raise (if feq x zero then ZeroDivisionError else NameError "g")).
Proof.
  intros Hlon Hys.
  split; [by eapply dist_needs_DEG2RAD|].
  split; [reflexivity|].
  split; [intros a d|intros x d].
  - by destruct (swvel_needs_g ext a zero d) as [E _].
  - by destruct (swvel_needs_g ext (Sca x) x d) as [_ E].
Qed.

End WithNumpy.

Lemma numpy_alone_is_not_enough_witness :
  sea_tmp.dist (with_numpy (sea_tmp.namespace no_extern))
    [VList [179; -179]%R; VArr (Vec [0; 0]%R)]
  = Raise (NameError "DEG2RAD")
  ∧ (∀ depth lat,
       sea_tmp.pres (with_numpy (sea_tmp.namespace no_extern)) [depth; lat]
       = Raise (NameError "LAT"))
  ∧ (∀ a d,
       sea_tmp.swvel (with_numpy (sea_tmp.namespace no_extern)) [VArr a; d]
       = Raise (NameError "g"))
  ∧ (∀ x d,
       sea_tmp.swvel (with_numpy (sea_tmp.namespace no_extern)) [VFloat x; d]
       = Raise (if feq x zero then ZeroDivisionError else NameError "g")).
Proof.
  apply (numpy_alone_is_not_enough no_extern (VList [179; -179]%R) [179; -179]%R
           [0; 0]%R eq_refl).
  discriminate.
Defined.

(** ** The longitude steps of [dist] *)

Lemma Forall_zip_with2 {T U : Type} (P : T → Prop) (Q : U → Prop) (f : T → T → U)
    (l1 l2 : list T) :
  (∀ a b, P a → P b → Q (f a b)) → Forall P l1 → Forall P l2 → Forall Q (zip_with f l1 l2).
Proof.
  intros Hf H1. revert l2. induction H1 as [|a l1 Ha _ IH]; intros l2 H2; cbn; [constructor|].
  destruct H2 as [|b l2 Hb H2]; constructor; auto.
Qed.

Lemma length_diffs {T : Type} (f : T → T → T) (xs : list T) :
  length (diffs f xs) = pred (length xs).
Proof.
  unfold diffs. rewrite length_zip_with. destruct xs; cbn; lia.
Qed.

Section DlonReal.
Open Scope R_scope.

Lemma wrap180_bound (d : R) : Rabs d <= 360 → Rabs (wrap180 d) <= 180.
Proof.
  intros Hd. unfold wrap180. cbn. unfold Real.ltb.
  destruct (Rlt_dec 180 (Rabs d)) as [H|H]; [|lra].
  destruct (sign_cases d) as [[? ->]|[[? ->]|[-> ->]]].
  - assert (Rabs d = d) as E by (apply Rabs_pos_eq; lra). rewrite E in *.
    rewrite Rabs_left1; lra.
  - assert (Rabs d = - d) as E by (apply Rabs_left; lra). rewrite E in *.
    rewrite Rabs_pos_eq; lra.
  - rewrite Rabs_R0 in H. lra.
Qed.

(** X6.  Over the reals, with [np] bound: for longitudes within
    [-180, 180], given as a list or a rank-1 array, lines 210-213 leave in
    [dlon] one step for each pair of neighbours, and every step has
    magnitude at most 180. *)
Theorem dlon_within_180 (W : world R) (lon lat : value R) (xs : list R)
    (n : Z) (ind : nd Z) :
  lookup_global W "np" = Some (VModule "numpy") →
  float_array lon = Some (Vec xs) →
  Forall (λ x, -180 <= x <= 180) xs →
  ∃ ds, local_after "dlon" (sea_tmp.dist_dlon W (dlon_frame lon lat n ind))
        = Some (VArr (Vec ds))
      ∧ length ds = pred (length xs)
      ∧ Forall (λ d, Rabs d <= 180) ds.
Proof.
  intros Hnp Hlon Hxs. eexists. split; [by apply dist_dlon_wraps|]. split.
  - by rewrite length_map, length_diffs.
  - apply Forall_map.
    apply (Forall_zip_with2 (λ x, -180 <= x <= 180)); [|by apply Forall_tail|done].
    intros a b Ha Hb. cbn. apply wrap180_bound.
    unfold Rabs. destruct (Rcase_abs (a - b)); lra.
Qed.

Lemma dlon_within_180_witness :
  ∃ ds, local_after "dlon"
          (sea_tmp.dist_dlon (with_numpy (sea_tmp.namespace no_extern))
             (dlon_frame (VList [179; -179; -170]) (VList [0; 0; 0]) 3 (Vec [0%Z; 1%Z])))
        = Some (VArr (Vec ds))
      ∧ length ds = pred (length [179; -179; -170])
      ∧ Forall (λ d, Rabs d <= 180) ds.
Proof.
  apply (dlon_within_180 (with_numpy (sea_tmp.namespace no_extern))
           (VList [179; -179; -170]) (VList [0; 0; 0]) [179; -179; -170] 3
           (Vec [0%Z; 1%Z]) eq_refl eq_refl).
  repeat constructor; lra.
Defined.

End DlonReal.

(** ** The other functions of [sw_extras.py] *)

Section MoreExtras.
Context {A : Type} {FA : Float A} {EA : Elementary A}.
Variable csiro : string → string → list (value A) → result (value A).

Lemma strat_period_spec (v : value A) (a : nd A) :
  float_array v = Some a →
  sw_extras_more.strat_period (sw_extras.namespace csiro) [v]
  = Ok (VArr (nd_map (fdiv (fmul (of_Z 2) fpi)) a)).
Proof. destruct v; intros [= <-]; py_run. Qed.

Lemma tcond_spec (vs vt vp : value A) (s t p : A) :
  float_array vs = Some (Sca s) → float_array vt = Some (Sca t) →
  float_array vp = Some (Sca p) →
  sw_extras_more.tcond (sw_extras.namespace csiro) [vs; vt; vp]
  = Ok (VArr (Sca (fmul (fmul (of_decimal 1365 (-6))
        (fsub (fadd (fsub (fadd (of_Z 1) (fmul (of_decimal 3 (-3)) t))
                          (fmul (of_decimal 1025 (-8)) (fmul t t)))
                    (fmul (of_decimal 653 (-4)) (fmul (of_decimal 1 (-4)) p)))
              (fmul (of_decimal 29 (-5)) s)))
        (of_decimal 4184 (-1))))).
Proof.
  destruct vs as [| | | | | |[]| | | | |]; intros [= <-];
    destruct vt as [| | | | | |[]| | | | |]; intros [= <-];
    destruct vp as [| | | | | |[]| | | | |]; intros [= <-]; py_run.
Qed.

Lemma cor_beta_spec (v : value A) (a : nd A) (omega r : A) :
  csiro "seawater.csiro" "OMEGA" [] = Ok (VFloat omega) →
  csiro "seawater.csiro" "a" [] = Ok (VFloat r) →
  float_array v = Some a →
  sw_extras_more.cor_beta (sw_extras.namespace csiro) [v]
  = Ok (VArr (nd_map (λ x, fdiv (fmul (fmul (of_Z 2) omega) (fcos x)) r) a)).
Proof. intros HO Ha. destruct v; intros [= <-]; py_run. Qed.

#[local] Opaque vsub vdiv.

Lemma sigmatheta_spec (s t p pr : value A) :
  sw_extras_more.sigmatheta (sw_extras.namespace csiro) [s; t; p; pr]
  = rbind (csiro "seawater.csiro" "pden" [asarray s; asarray t; asarray p; asarray pr])
          (λ d, vsub d (VFloat (of_decimal 10000 (-1)))).
Proof.
  destruct (csiro "seawater.csiro" "pden" [asarray s; asarray t; asarray p; asarray pr])
    as [d|e] eqn:E; cbn [rbind].
  - destruct (vsub d (VFloat (of_decimal 10000 (-1)))) eqn:E'; py_run.
  - py_run.
Qed.

Lemma inertial_period_spec (lat : value A) :
  sw_extras_more.inertial_period (sw_extras.namespace csiro) [lat]
  = rbind (csiro "seawater.csiro" "cor" [asarray lat])
          (λ f, vdiv (VFloat (fmul (of_Z 2) fpi)) f).
Proof.
  destruct (csiro "seawater.csiro" "cor" [asarray lat]) as [d|e] eqn:E; cbn [rbind].
  - destruct (vdiv (VFloat (fmul (of_Z 2) fpi)) d) eqn:E'; py_run.
  - py_run.
Qed.

#[local] Transparent vsub vdiv.

(** X7.  [sigmatheta(s, t, p, pr)] is [sw.pden] of the four arguments,
    converted to arrays, minus 1000.0, and raises what [sw.pden] raises;
    leaving [pr] out is passing the int 0. *)
Theorem sigmatheta_is_pden_minus_1000 (s t p pr : value A) :
  sw_extras_more.sigmatheta (sw_extras.namespace csiro) [s; t; p; pr]
  = rbind (csiro "seawater.csiro" "pden" [asarray s; asarray t; asarray p; asarray pr])
          (λ d, vsub d (VFloat (of_decimal 10000 (-1))))
  ∧ sw_extras_more.sigmatheta (sw_extras.namespace csiro) [s; t; p]
    = sw_extras_more.sigmatheta (sw_extras.namespace csiro) [s; t; p; VInt 0].
Proof. split; [apply sigmatheta_spec|reflexivity]. Qed.

(** X8.  When [sw.cor] returns an array, [inertial_period(lat)] is
    [strat_period] of that array: both are 2π over their operand. *)
Theorem inertial_period_is_strat_period_of_cor (lat : value A) (f : nd A) :
  csiro "seawater.csiro" "cor" [asarray lat] = Ok (VArr f) →
  sw_extras_more.inertial_period (sw_extras.namespace csiro) [lat]
  = sw_extras_more.strat_period (sw_extras.namespace csiro) [VArr f].
Proof.
  intros Hf. rewrite inertial_period_spec, Hf.
  rewrite (strat_period_spec (VArr f) f eq_refl). cbn [rbind].
  py_run.
Qed.

Lemma bc_vec_mismatch {T U V : Type} (f : T → U → V) (xs : list T) (ys : list U) :
  length xs ≠ length ys → length xs ≠ 1%nat → length ys ≠ 1%nat →
  bc_vec f xs ys = None.
Proof.
  intros H H1 H2. unfold bc_vec.
  rewrite (proj2 (Nat.eqb_neq _ _) H).
  destruct xs as [|x [|x' xs]], ys as [|y [|y' ys]]; cbn in *; congruence.
Qed.

#[local] Transparent bc_nd.

Lemma bc_nd_mismatch {T U V : Type} (f : T → U → V) (xs : list T) (ys : list U) :
  length xs ≠ length ys → length xs ≠ 1%nat → length ys ≠ 1%nat →
  bc_nd f (Vec xs) (Vec ys) = None.
Proof. intros. cbn. by rewrite bc_vec_mismatch. Qed.

#[local] Opaque bc_nd.

Ltac mismatch :=
  match goal with
  | Heq : bc_nd _ _ _ = Some _ |- _ =>
      rewrite bc_nd_mismatch in Heq by (rewrite ?length_map; congruence);
      discriminate Heq
  end.

(** X9.  Two rank-1 operands of different lengths, neither of length 1,
    cannot be broadcast: [richnumb(n, s)] raises [ValueError]; so does
    [visc(s, t, p)] for such [s] and [t], before [sw.dens] is called, and
    [tcond(s, t, p)] with a float [p]. *)
Theorem shape_mismatch_raises_ValueError (u v p : value A) (xs ys : list A) (z : A) :
  float_array u = Some (Vec xs) → float_array v = Some (Vec ys) →
  length xs ≠ length ys → length xs ≠ 1%nat → length ys ≠ 1%nat →
  sw_extras.richnumb (sw_extras.namespace csiro) [u; v] = Raise ValueError
  ∧ sw_extras_more.visc (sw_extras.namespace csiro) [u; v; p] = Raise ValueError
  ∧ sw_extras_more.tcond (sw_extras.namespace csiro) [u; v; VFloat z] = Raise ValueError.
Proof.
  intros Hu Hv H H1 H2.
  destruct u as [| | | | | |[]| | | | |]; revert Hu; intros [= <-];
  destruct v as [| | | | | |[]| | | | |]; revert Hv; intros [= <-].
  all: split; [|split]; py_run_with ltac:(idtac; mismatch).
Qed.

End MoreExtras.

Lemma inertial_period_is_strat_period_of_cor_witness :
  sw_extras_more.inertial_period (sw_extras.namespace (csiro_returning (Vec [1; 2]%R)))
    [VFloat 30%R]
  = sw_extras_more.strat_period (sw_extras.namespace (csiro_returning (Vec [1; 2]%R)))
      [VArr (Vec [1; 2]%R)].
Proof.
  apply (inertial_period_is_strat_period_of_cor (csiro_returning (Vec [1; 2]%R))
           (VFloat 30%R) (Vec [1; 2]%R)).
  reflexivity.
Defined.

Lemma shape_mismatch_raises_ValueError_witness :
  sw_extras.richnumb (sw_extras.namespace no_extern)
    [VList [1; 2]%R; VList [1; 2; 3]%R] = Raise ValueError
  ∧ sw_extras_more.visc (sw_extras.namespace no_extern)
      [VList [1; 2]%R; VList [1; 2; 3]%R; VNone] = Raise ValueError
  ∧ sw_extras_more.tcond (sw_extras.namespace no_extern)
      [VList [1; 2]%R; VList [1; 2; 3]%R; VFloat 0%R] = Raise ValueError.
Proof.
  apply (shape_mismatch_raises_ValueError no_extern (VList [1; 2]%R)
           (VList [1; 2; 3]%R) VNone [1; 2]%R [1; 2; 3]%R 0%R eq_refl eq_refl);
    cbn; lia.
Defined.

(** ** [sw_extras.py] over the reals *)

Lemma nd_map_id_on {T : Type} (f : T → T) (a : nd T) :
  Forall (λ x, f x = x) (nd_flat a) → nd_map f a = a.
Proof.
  destruct a as [x|xs|rows]; cbn.
  - intros Hx. inversion Hx; subst. by f_equal.
  - intros Hx. f_equal. induction Hx as [|x xs E _ IH]; cbn; [done|]. by rewrite E, IH.
  - intros Hx. f_equal. induction rows as [|r rows IH]; cbn in *; [done|].
    apply Forall_app in Hx as [Hr Hrows]. rewrite IH by done. f_equal.
    clear -Hr. induction Hr as [|x xs E _ IH]; cbn; [done|]. by rewrite E, IH.
Qed.

Section RealExtras.
Variable csiro : string → string → list (value R) → result (value R).
Open Scope R_scope.

(** X10.  Over the reals [strat_period] is its own inverse: applied to its
    result for an argument without zeros, it gives the argument back. *)
Theorem strat_period_involution (v : value R) (a : nd R) :
  float_array v = Some a → Forall (λ x, x ≠ 0) (nd_flat a) →
  ∃ b, sw_extras_more.strat_period (sw_extras.namespace csiro) [v] = Ok (VArr b)
     ∧ sw_extras_more.strat_period (sw_extras.namespace csiro) [VArr b] = Ok (VArr a).
Proof.
  intros Hv Ha. eexists. split; [by apply strat_period_spec|].
  rewrite (strat_period_spec csiro (VArr _) _ eq_refl), nd_map_map.
  do 2 f_equal. apply nd_map_id_on.
  eapply Forall_impl; [exact Ha|]. cbn. intros x Hx.
  pose proof PI_RGT_0. field. split; lra.
Qed.

Lemma sign_scale (k x : R) : 0 < k → Real.sign (k * x) = Real.sign x.
Proof.
  intros Hk. destruct (sign_cases x) as [[? ->]|[[? ->]|[-> ->]]].
  - apply sign_pos. nra.
  - apply sign_neg. nra.
  - rewrite Rmult_0_r. apply sign_zero.
Qed.

(** X11.  Over the reals [richnumb] does not depend on the unit of
    frequency: multiplying [n] and [s] by the same positive factor leaves
    the result unchanged. *)
Theorem richnumb_scale_invariant (vn : value R) (a : nd R) (s k : R) :
  float_array vn = Some a → 0 < k → s ≠ 0 →
  sw_extras.richnumb (sw_extras.namespace csiro) [VArr (nd_map (Rmult k) a); VFloat (k * s)]
  = sw_extras.richnumb (sw_extras.namespace csiro) [vn; VFloat s].
Proof.
  intros Hn Hk Hs.
  rewrite (richnumb_spec csiro vn (VFloat s) a s Hn eq_refl).
  rewrite (richnumb_spec csiro (VArr _) (VFloat (k * s)) _ (k * s) eq_refl eq_refl).
  rewrite nd_map_map. do 2 f_equal. apply nd_map_ext. intros x.
  unfold signed_square. cbn. rewrite sign_scale by done. field. lra.
Qed.

Lemma signed_sqrt_opp (x : R) : signed_sqrt (- x) = - signed_sqrt x.
Proof.
  unfold signed_sqrt. cbn. rewrite Rabs_Ropp.
  destruct (sign_cases x) as [[? ->]|[[? ->]|[-> ->]]].
  - rewrite sign_neg by lra. ring.
  - rewrite sign_pos by lra. ring.
  - rewrite Ropp_0, sign_zero. ring.
Qed.

Lemma signed_sqrt_increasing (x y : R) : x < y → signed_sqrt x < signed_sqrt y.
Proof.
  intros Hxy. unfold signed_sqrt. cbn.
  destruct (sign_cases x) as [[Hx ->]|[[Hx ->]|[-> ->]]];
    destruct (sign_cases y) as [[Hy ->]|[[Hy ->]|[-> ->]]]; try lra.
  - rewrite !Rabs_pos_eq by lra. pose proof (sqrt_lt_1 x y). lra.
  - rewrite Rabs_left, Rabs_pos_eq by lra.
    pose proof (sqrt_lt_R0 (- x)). pose proof (sqrt_lt_R0 y). lra.
  - rewrite !Rabs_left by lra. pose proof (sqrt_lt_1 (- y) (- x)). lra.
  - rewrite Rabs_left by lra. pose proof (sqrt_lt_R0 (- x)). lra.
  - rewrite (Rabs_pos_eq y) by lra. pose proof (sqrt_lt_R0 y). lra.
Qed.

(** X12.  Over the reals [N] is odd: on the negated argument it returns the
    negated result. *)
Theorem N_is_odd (v : value R) (a : nd R) :
  float_array v = Some a →
  ∃ b, sw_extras.N (sw_extras.namespace csiro) [v] = Ok (VArr b)
     ∧ sw_extras.N (sw_extras.namespace csiro) [VArr (nd_map Ropp a)]
       = Ok (VArr (nd_map Ropp b)).
Proof.
  intros Hv. eexists. split; [by apply N_spec|].
  rewrite (N_spec csiro (VArr _) _ eq_refl), !nd_map_map.
  do 2 f_equal. apply nd_map_ext. intros x. apply signed_sqrt_opp.
Qed.

(** X13.  Over the reals [N] is strictly increasing: it keeps the order of
    any two values of N², negative ones included. *)
Theorem N_is_increasing (x y : R) :
  x < y →
  ∃ nx ny, scalar_of (sw_extras.N (sw_extras.namespace csiro) [VFloat x]) = Some nx
         ∧ scalar_of (sw_extras.N (sw_extras.namespace csiro) [VFloat y]) = Some ny
         ∧ nx < ny.
Proof.
  intros Hxy. exists (signed_sqrt x), (signed_sqrt y).
  rewrite !(N_spec csiro (VFloat _) _ eq_refl).
  repeat split. by apply signed_sqrt_increasing.
Qed.

(** X14.  Over the reals the thermal conductivity of [tcond] falls when the
    salinity rises and rises when the pressure rises, at any temperature. *)
Theorem tcond_monotone (s s' t p p' : R) :
  s <= s' → p <= p' →
  ∃ k k1 k2,
    scalar_of (sw_extras_more.tcond (sw_extras.namespace csiro)
                 [VFloat s; VFloat t; VFloat p]) = Some k
    ∧ scalar_of (sw_extras_more.tcond (sw_extras.namespace csiro)
                   [VFloat s'; VFloat t; VFloat p]) = Some k1
    ∧ scalar_of (sw_extras_more.tcond (sw_extras.namespace csiro)
                   [VFloat s; VFloat t; VFloat p']) = Some k2
    ∧ k1 <= k <= k2.
Proof.
  intros Hs Hp. do 3 eexists.
  rewrite !(tcond_spec csiro (VFloat _) (VFloat _) (VFloat _) _ _ _ eq_refl eq_refl eq_refl).
  cbn [scalar_of]. repeat split.
  all: cbn; cbv [Pos.to_nat Pos.iter_op Init.Nat.add]; lra.
Qed.

(** X15.  [cor_beta] takes the cosine of [lat] as it is given, a number of
    radians: over the reals its result is the same for [-lat] and for
    [lat + 2π]. *)
Theorem cor_beta_even_periodic (omega r : R) (v : value R) (a : nd R) :
  csiro "seawater.csiro" "OMEGA" [] = Ok (VFloat omega) →
  csiro "seawater.csiro" "a" [] = Ok (VFloat r) →
  float_array v = Some a →
  sw_extras_more.cor_beta (sw_extras.namespace csiro) [VArr (nd_map Ropp a)]
  = sw_extras_more.cor_beta (sw_extras.namespace csiro) [v]
  ∧ sw_extras_more.cor_beta (sw_extras.namespace csiro)
      [VArr (nd_map (λ x, x + 2 * PI) a)]
    = sw_extras_more.cor_beta (sw_extras.namespace csiro) [v].
Proof.
  intros HO Hr Hv.
  rewrite (cor_beta_spec csiro v a omega r HO Hr Hv).
  rewrite !(cor_beta_spec csiro (VArr _) _ omega r HO Hr eq_refl), !nd_map_map.
  split; do 2 f_equal; apply nd_map_ext; intros x; cbn.
  - by rewrite cos_neg.
  - by rewrite cos_plus, cos_2PI, sin_2PI, Rmult_1_r, Rmult_0_r, Rminus_0_r.
Qed.

End RealExtras.

Section RealWitnesses.
Open Scope R_scope.

Lemma strat_period_involution_witness :
  ∃ b, sw_extras_more.strat_period (sw_extras.namespace no_extern) [VList [2; -4]]
       = Ok (VArr b)
     ∧ sw_extras_more.strat_period (sw_extras.namespace no_extern) [VArr b]
       = Ok (VArr (Vec [2; -4])).
Proof.
  apply (strat_period_involution no_extern (VList [2; -4]) (Vec [2; -4]) eq_refl).
  repeat constructor; cbn; lra.
Defined.

Lemma richnumb_scale_invariant_witness :
  sw_extras.richnumb (sw_extras.namespace no_extern)
    [VArr (nd_map (Rmult 2) (Vec [1; -3])); VFloat (2 * 5)]
  = sw_extras.richnumb (sw_extras.namespace no_extern) [VList [1; -3]; VFloat 5].
Proof.
  apply (richnumb_scale_invariant no_extern (VList [1; -3]) (Vec [1; -3]) 5 2 eq_refl); lra.
Defined.

Lemma N_is_odd_witness :
  ∃ b, sw_extras.N (sw_extras.namespace no_extern) [VList [4; -9]] = Ok (VArr b)
     ∧ sw_extras.N (sw_extras.namespace no_extern) [VArr (nd_map Ropp (Vec [4; -9]))]
       = Ok (VArr (nd_map Ropp b)).
Proof. apply (N_is_odd no_extern (VList [4; -9]) (Vec [4; -9])). reflexivity. Defined.

Lemma N_is_increasing_witness :
  ∃ nx ny, scalar_of (sw_extras.N (sw_extras.namespace no_extern) [VFloat (-4)]) = Some nx
         ∧ scalar_of (sw_extras.N (sw_extras.namespace no_extern) [VFloat 1]) = Some ny
         ∧ nx < ny.
Proof. apply (N_is_increasing no_extern (-4) 1). lra. Defined.

Lemma tcond_monotone_witness :
  ∃ k k1 k2,
    scalar_of (sw_extras_more.tcond (sw_extras.namespace no_extern)
                 [VFloat 0; VFloat 10; VFloat 0]) = Some k
    ∧ scalar_of (sw_extras_more.tcond (sw_extras.namespace no_extern)
                   [VFloat 35; VFloat 10; VFloat 0]) = Some k1
    ∧ scalar_of (sw_extras_more.tcond (sw_extras.namespace no_extern)
                   [VFloat 0; VFloat 10; VFloat 1000]) = Some k2
    ∧ k1 <= k <= k2.
Proof. apply (tcond_monotone no_extern 0 35 10 0 1000); lra. Defined.

Lemma cor_beta_even_periodic_witness :
  sw_extras_more.cor_beta (sw_extras.namespace (csiro_constants 1 2))
    [VArr (nd_map Ropp (Vec [0; 1]))]
  = sw_extras_more.cor_beta (sw_extras.namespace (csiro_constants 1 2)) [VList [0; 1]]
  ∧ sw_extras_more.cor_beta (sw_extras.namespace (csiro_constants 1 2))
      [VArr (nd_map (λ x, x + 2 * PI) (Vec [0; 1]))]
    = sw_extras_more.cor_beta (sw_extras.namespace (csiro_constants 1 2)) [VList [0; 1]].
Proof.
  apply (cor_beta_even_periodic (csiro_constants 1 2) 1 2 (VList [0; 1]) (Vec [0; 1]));
    reflexivity.
Defined.

End RealWitnesses.

(** ** [gibbs3/isobaric.py] *)

(** X16.  The body of [latentheat_evap_t] calls [CT_from_pt(SA, t)] and then
    reads [latentheat_evap_CT], a name that [__all__] lists and that the
    module neither defines nor imports: the body raises what [CT_from_pt]
    raises and [NameError] otherwise, and returns no value. *)
Theorem latentheat_evap_t_never_returns {A : Type} {FA : Float A}
    (ext : string → string → list (value A) → result (value A)) (SA t : value A) :
  isobaric.latentheat_evap_t (isobaric.namespace ext) [SA; t]
  = rbind (ext "conversions" "CT_from_pt" [SA; t])
          (λ _, Raise (NameError "latentheat_evap_CT"))
  ∧ returns (isobaric.latentheat_evap_t (isobaric.namespace ext) [SA; t]) = false.
Proof.
  assert (isobaric.latentheat_evap_t (isobaric.namespace ext) [SA; t]
          = rbind (ext "conversions" "CT_from_pt" [SA; t])
                  (λ _, Raise (NameError "latentheat_evap_CT"))) as E.
  { destruct (ext "conversions" "CT_from_pt" [SA; t]) eqn:E; py_run. }
  split; [exact E|]. rewrite E.
  by destruct (ext "conversions" "CT_from_pt" [SA; t]).
Qed.

(** ** [shear] *)

#[local] Transparent existsb same_length new_items diffs select scatter.

Section ListFacts.
Context {T : Type}.

Lemma gather_range (lo : nat) (n : Z) (xs : list T) :
  (lo + Z.to_nat n ≤ length xs)%nat →
  gather ((λ k, (Z.of_nat lo + k * 1)%Z) <$> seqZ 0 n) xs
  = Ok (take (Z.to_nat n) (drop lo xs)).
Proof.
  intros Hn. unfold gather, seqZ.
  enough (∀ k i, (lo + i + k ≤ length xs)%nat →
            mapM (λ j, norm_index (length xs) j ≫= λ m, xs !! m)
                 ((λ k, (Z.of_nat lo + k * 1)%Z) <$> ((λ j : nat, (Z.of_nat j + 0)%Z) <$> seq i k))
            = Some (take k (drop (lo + i) xs))) as E.
  { rewrite (E (Z.to_nat n) 0%nat) by lia. by rewrite Nat.add_0_r. }
  induction k as [|k IH]; intros i Hi; [done|].
  cbn [seq fmap list_fmap mapM].
  assert (norm_index (length xs) (Z.of_nat lo + (Z.of_nat i + 0) * 1) = Some (lo + i)%nat) as ->.
  { unfold norm_index.
    replace (Z.of_nat lo + (Z.of_nat i + 0) * 1)%Z with (Z.of_nat (lo + i)) by lia.
    destruct (Z.ltb_spec (Z.of_nat (lo + i)) 0); [lia|].
    destruct (Z.leb_spec 0 (Z.of_nat (lo + i))); [|lia].
    destruct (Z.ltb_spec (Z.of_nat (lo + i)) (Z.of_nat (length xs))); [|lia].
    cbn. by rewrite Nat2Z.id. }
  destruct (lookup_lt_is_Some_2 xs (lo + i)%nat ltac:(lia)) as [x Hx].
  cbn. rewrite Hx. cbn.
  specialize (IH (S i) ltac:(lia)). cbn in IH. rewrite IH. cbn.
  rewrite (drop_S xs x (lo + i) Hx). cbn. by rewrite Nat.add_succ_r.
Qed.

(** [a[np.arange(lo, lo + n), :]] takes [n] rows from row [lo] on. *)
Lemma gather_rangeZ (lo n : Z) (k d : nat) (xs : list T) :
  Z.to_nat n = k → (0 ≤ lo)%Z → Z.to_nat lo = d → (k = 0 ∨ d + k ≤ length xs)%nat →
  gather ((λ j, (lo + j * 1)%Z) <$> seqZ 0 n) xs = Ok (take k (drop d xs)).
Proof.
  intros <- Hlo <- [Hn|Hn].
  - unfold seqZ. by rewrite Hn.
  - rewrite <- (gather_range (Z.to_nat lo) n xs Hn). by rewrite Z2Nat.id.
Qed.

Lemma slice_all_rows (rs : list (list T)) {A : Type} :
  foldr (λ r acc, rbind (slice_list (A:=A) None None r) (λ r', rmap (cons r') acc))
        (Ok []) rs = Ok rs.
Proof.
  induction rs as [|r rs IH]; [done|]. cbn [foldr]. rewrite IH. cbn.
  by rewrite drop_0, Nat.sub_0_r, firstn_all.
Qed.

Lemma bc_vec_same {U V : Type} (f : T → U → V) (r1 : list T) (r2 : list U) :
  length r1 = length r2 → bc_vec f r1 r2 = Some (zip_with f r1 r2).
Proof. intros E. unfold bc_vec. by rewrite E, Nat.eqb_refl. Qed.

Lemma bc_rows_rect {U V : Type} (f : T → U → V) (R1 : list (list T)) (R2 : list (list U)) :
  Forall2 (λ r1 r2, length r1 = length r2) R1 R2 →
  bc_rows f R1 R2 = Some (zip_with (zip_with f) R1 R2).
Proof.
  intros HR. unfold bc_rows. rewrite (Forall2_length _ _ _ HR), Nat.eqb_refl.
  induction HR as [|r1 r2 R1 R2 Hr _ IH]; [done|].
  change (mapM (λ p : list T * list U, bc_vec f p.1 p.2) (zip (r1 :: R1) (r2 :: R2)))
    with (y ← bc_vec f r1 r2;
          k ← mapM (λ p : list T * list U, bc_vec f p.1 p.2) (zip R1 R2); mret (y :: k)).
  by rewrite (bc_vec_same f r1 r2 Hr), IH.
Qed.

Lemma rect_Forall2 {U : Type} (n : nat) (X : list (list T)) (Y : list (list U)) :
  Forall (λ r, length r = n) X → Forall (λ r, length r = n) Y → length X = length Y →
  Forall2 (λ a b, length a = length b) X Y.
Proof.
  intros HX. revert Y. induction HX as [|x X Hx _ IH]; intros Y HY Hl.
  - destruct Y; [constructor|discriminate].
  - destruct HY as [|y Y Hy HY]; [discriminate|].
    constructor; [congruence|]. apply IH; [done|]. by injection Hl.
Qed.

Lemma rect_diffs (f : T → T → T) (n : nat) (X : list (list T)) :
  Forall (λ r, length r = n) X → Forall (λ r, length r = n) (diffs (zip_with f) X).
Proof.
  intros HX. unfold diffs.
  apply (Forall_zip_with2 (λ r, length r = n)); [|by apply Forall_tail|done].
  intros a b Ha Hb. rewrite length_zip_with. lia.
Qed.

Lemma rect_map {U : Type} (g : T → U) (n : nat) (X : list (list T)) :
  Forall (λ r, length r = n) X → Forall (λ r, length r = n) (map (map g) X).
Proof.
  intros HX. apply Forall_map. eapply Forall_impl; [exact HX|].
  intros r Hr. cbn. by rewrite length_map.
Qed.

Lemma map_map_rows {U V : Type} (f : T → U) (g : U → V) (X : list (list T)) :
  map (map g) (map (map f) X) = map (map (λ x, g (f x))) X.
Proof.
  rewrite map_map. apply map_ext. intros r. apply map_map.
Qed.

Lemma map_zip_with_rows {U V X : Type} (f : T → U → V) (g : V → X)
    (R1 : list (list T)) (R2 : list (list U)) :
  map (map g) (zip_with (zip_with f) R1 R2)
  = zip_with (zip_with (λ a b, g (f a b))) R1 R2.
Proof.
  revert R2. induction R1 as [|r1 R1 IH]; intros [|r2 R2]; cbn; try done.
  rewrite IH. f_equal. clear. revert r2.
  induction r1 as [|a r1 IH]; intros [|b r2]; cbn; try done. by rewrite IH.
Qed.

Lemma length_repeat_each (k : nat) (xs : list T) :
  length (concat (replicate k <$> xs)) = (length xs * k)%nat.
Proof.
  induction xs as [|x xs IH]; [done|].
  cbn. by rewrite length_app, length_replicate, IH.
Qed.

Lemma unflatten_repeat_each (k : nat) (xs : list T) :
  unflatten (replicate (length xs) k) (concat (replicate k <$> xs)) = replicate k <$> xs.
Proof.
  induction xs as [|x xs IH]; [done|].
  cbn. rewrite take_app_length' by (by rewrite length_replicate).
  rewrite drop_app_length' by (by rewrite length_replicate). by rewrite IH.
Qed.

Lemma diffs_ext (f g : T → T → T) (X : list T) :
  (∀ a b, f a b = g a b) → diffs f X = diffs g X.
Proof. intros E. unfold diffs. apply zip_with_ext; auto. Qed.

Lemma zip_with_map2 {U V : Type} (f : U → U → V) (g : T → U) (r1 r2 : list T) :
  zip_with f (map g r1) (map g r2) = zip_with (λ a b, f (g a) (g b)) r1 r2.
Proof.
  change (map g r1) with (g <$> r1). change (map g r2) with (g <$> r2).
  by rewrite zip_with_fmap_l, zip_with_fmap_r.
Qed.

Lemma diffs_map (f : T → T → T) (g : T → T) (X : list T) :
  diffs f (map g X) = diffs (λ a b, f (g a) (g b)) X.
Proof.
  unfold diffs. destruct X as [|x X]; [done|]. cbn [tail map].
  apply (zip_with_map2 f g X (x :: X)).
Qed.

End ListFacts.

#[local] Transparent bc_nd.

Lemma bc_nd_rect {T U V : Type} (f : T → U → V) (n : nat)
    (R1 : list (list T)) (R2 : list (list U)) :
  Forall (λ r, length r = n) R1 → Forall (λ r, length r = n) R2 →
  length R1 = length R2 →
  bc_nd f (Mat R1) (Mat R2) = Some (Mat (zip_with (zip_with f) R1 R2)).
Proof.
  intros H1 H2 Hl. cbn. by rewrite (bc_rows_rect f R1 R2 (rect_Forall2 n R1 R2 H1 H2 Hl)).
Qed.

#[local] Opaque bc_nd.

Ltac rect :=
  repeat first [ assumption
               | apply rect_diffs | apply rect_map
               | apply Forall_take | apply Forall_drop ].

Ltac rect_length :=
  unfold grid_shear, row_means, diffs;
  rewrite ?length_zip_with, ?length_tl, ?length_map, ?length_take, ?length_drop; lia.

Section Shear.
Context {A : Type} {FA : Float A}.
Variable csiro : string → string → list (value A) → result (value A).

Lemma shear_scalar_p (p u v : value A) (x : A) :
  float_array p = Some (Sca x) →
  sw_extras_shear.shear (sw_extras.namespace csiro) [p; u; v] = Raise ValueError
  ∧ sw_extras_shear.shear (sw_extras.namespace csiro) [p; u] = Raise ValueError.
Proof.
  destruct p as [| | | | | |[]| | | | |]; intros [= <-]; split; py_run.
Qed.

Lemma shear_low_rank_u (p u v : value A) (ps : list A) (a : nd A) :
  float_array p = Some (Vec ps) → float_array u = Some a →
  (length (nd_shape a) < 2)%nat →
  sw_extras_shear.shear (sw_extras.namespace csiro) [p; u; v] = Raise IndexError
  ∧ sw_extras_shear.shear (sw_extras.namespace csiro) [p; u] = Raise IndexError.
Proof.
  intros Hp Hu Ha.
  destruct p as [| | | | | |[]| | | | |]; revert Hp; intros [= <-];
  destruct u as [| | | | | |[]| | | | |]; revert Hu; intros [= <-];
  try (cbn in Ha; lia); split; py_run.
Qed.

Ltac shear_fact :=
  match goal with
  | H : gather ((λ j, (?lo + j * 1)%Z) <$> seqZ 0 ?n) ?xs = _ |- _ =>
      first [ rewrite (gather_rangeZ lo n (pred (length xs)) 0 xs) in H
                by (rewrite ?Z.div_1_r; lia)
            | rewrite (gather_rangeZ lo n (pred (length xs)) 1 xs) in H
                by (rewrite ?Z.div_1_r; lia) ];
      first [discriminate H | injection H as <-]
  | HP : Forall (λ r, length r = ?n) _, H : bc_nd ?f (Mat ?R1) (Mat ?R2) = _ |- _ =>
      rewrite (bc_nd_rect f n R1 R2) in H by first [solve [rect] | rect_length];
      first [discriminate H | injection H as <-]
  | H : ?lhs ?l = ?r |- _ =>
      let E := fresh in
      assert (Ok l = r) as E by (rewrite <- (slice_all_rows l (A:=A)); exact H);
      clear H; first [discriminate E | injection E as <-]
  end.

Ltac shear_run :=
  py_run; repeat shear_fact; py_head; cbn [fst nd_map];
  match goal with
  | |- context [take _ (drop 1 ?P)] =>
      rewrite (take_ge (drop 1 P)) by (rewrite length_drop; lia)
  end;
  by rewrite !map_map_rows, map_zip_with_rows.

#[local] Opaque gather.

(** [shear] on a grid, with a float [v] and with [v] left out. *)
Lemma shear_2d (P U : list (list A)) (v : value A) (z : A) (n : nat) :
  Forall (λ r, length r = n) P → Forall (λ r, length r = n) U →
  length U = length P →
  float_array v = Some (Sca z) →
  sw_extras_shear.shear (sw_extras.namespace csiro) [VArr (Mat P); VArr (Mat U); v]
  = Ok (VTuple [VArr (Mat (grid_shear P U z)); VArr (Mat (row_means P))]).
Proof.
  intros HP HU Hlen Hv. unfold grid_shear, row_means.
  destruct v as [| | | | | |[]| | | | |]; revert Hv; intros [= <-]; shear_run.
Qed.

Lemma shear_2d_default (P U : list (list A)) (n : nat) :
  Forall (λ r, length r = n) P → Forall (λ r, length r = n) U →
  length U = length P →
  sw_extras_shear.shear (sw_extras.namespace csiro) [VArr (Mat P); VArr (Mat U)]
  = Ok (VTuple [VArr (Mat (grid_shear P U (of_Z 0))); VArr (Mat (row_means P))]).
Proof.
  intros HP HU Hlen. unfold grid_shear, row_means. shear_run.
Qed.

#[local] Transparent gather.

Lemma shear_unfold (p u v : value A) :
  sw_extras_shear.shear (sw_extras.namespace csiro) [p; u; v]
  = rmap fst (bind sw_extras_shear.shear_grid (λ _, sw_extras_shear.shear_rows)
                (sw_extras.namespace csiro) (shear_frame p u v)).
Proof. reflexivity. Qed.

Lemma shear_grid_rank2 (P : list (list A)) (u v : value A) :
  sw_extras_shear.shear_grid (sw_extras.namespace csiro) (shear_frame (VArr (Mat P)) u v)
  = Ok (tt, shear_frame (VArr (Mat P)) (asarray u) (asarray v)).
Proof. py_run. Qed.

Lemma repeat_row (ps : list A) (k : nat) :
  np_repeat_axis1 (VArr (Mat [ps])) (VInt (Z.of_nat k))
  = Ok (VArr (Mat [concat (replicate k <$> ps)])).
Proof.
  unfold np_repeat_axis1. cbn.
  destruct (Z.ltb_spec (Z.of_nat k) 0); [lia|]. by rewrite Nat2Z.id.
Qed.

Lemma reshape_rows (ps : list A) (k : nat) :
  np_reshape (VArr (Mat [concat (replicate k <$> ps)]))
    (VTuple [VInt (Z.of_nat (length ps)); VInt (Z.of_nat k)])
  = Ok (VArr (Mat (replicate k <$> ps))).
Proof.
  unfold np_reshape. cbn. rewrite app_nil_r, length_repeat_each.
  rewrite (proj2 (Z.eqb_eq _ _)) by lia.
  by rewrite !Nat2Z.id, unflatten_repeat_each.
Qed.

#[local] Opaque np_repeat_axis1 np_reshape.

Lemma shear_grid_rank1 (p v : value A) (ps : list A) (U : list (list A)) (n : nat) :
  float_array p = Some (Vec ps) →
  Forall (λ r, length r = n) U → length U = length ps →
  sw_extras_shear.shear_grid (sw_extras.namespace csiro) (shear_frame p (VArr (Mat U)) v)
  = Ok (tt, shear_frame (VArr (Mat (replicate n <$> ps))) (VArr (Mat U)) (asarray v)).
Proof.
  intros Hp HU Hlen.
  assert (replicate (length (hd [] U)) <$> ps = replicate n <$> ps) as Hn.
  { destruct HU as [|r U Hr _]; [|by rewrite <- Hr].
    by destruct ps. }
  destruct p as [| | | |l| |[|l|]| | | | |]; revert Hp; intros [= <-].
  all: py_run.
  all: rewrite repeat_row in Heqr; first [discriminate Heqr | injection Heqr as <-].
  all: rewrite Hlen, reshape_rows, Hn in Heqr0;
       first [discriminate Heqr0 | injection Heqr0 as <-].
  all: reflexivity.
Qed.

#[local] Transparent np_repeat_axis1 np_reshape.

Lemma shear_rank1 (p v : value A) (ps : list A) (U : list (list A)) (n : nat) :
  float_array p = Some (Vec ps) →
  Forall (λ r, length r = n) U → length U = length ps →
  sw_extras_shear.shear (sw_extras.namespace csiro) [p; VArr (Mat U); v]
  = sw_extras_shear.shear (sw_extras.namespace csiro)
      [VArr (Mat (replicate n <$> ps)); VArr (Mat U); v].
Proof.
  intros Hp HU Hlen. rewrite !shear_unfold. unfold bind.
  rewrite (shear_grid_rank1 p v ps U n Hp HU Hlen).
  by rewrite (shear_grid_rank2 (replicate n <$> ps) (VArr (Mat U)) v).
Qed.

(** X17.  On a grid, that is for [p] and [u] of rank 2 with the same number
    of rows, all of one length: [shear] returns the pair [(shr, p_ave)],
    where [p_ave] holds the mean of every two consecutive rows of [p] and
    [shr] the differences between consecutive rows of the speed
    [sqrt(u**2 + v**2)] divided by those of [p], for a float [v] and, with
    [v] left out, for 0; both results have one row less than [p]. *)
Theorem shear_on_grids (P U : list (list A)) (n : nat) :
  Forall (λ r, length r = n) P → Forall (λ r, length r = n) U →
  length U = length P →
  (∀ v z, float_array v = Some (Sca z) →
     sw_extras_shear.shear (sw_extras.namespace csiro) [VArr (Mat P); VArr (Mat U); v]
     = Ok (VTuple [VArr (Mat (grid_shear P U z)); VArr (Mat (row_means P))]))
  ∧ sw_extras_shear.shear (sw_extras.namespace csiro) [VArr (Mat P); VArr (Mat U)]
    = Ok (VTuple [VArr (Mat (grid_shear P U (of_Z 0))); VArr (Mat (row_means P))])
  ∧ (∀ z, length (grid_shear P U z) = pred (length P))
  ∧ length (row_means P) = pred (length P).
Proof.
  intros HP HU Hlen.
  split; [intros v z Hv; by apply (shear_2d P U v z n)|].
  split; [by apply (shear_2d_default P U n)|].
  split; [intros z|]; rect_length.
Qed.

(** X18.  A rank-1 [p], list or array, with one pressure for each row of a
    rank-2 [u], is spread over the columns of [u]: the call ends as the call
    with the rank-2 pressure whose row [i] repeats [p[i]]. *)
Theorem shear_spreads_rank1_pressure (p v : value A) (ps : list A)
    (U : list (list A)) (n : nat) :
  float_array p = Some (Vec ps) →
  Forall (λ r, length r = n) U → length U = length ps →
  sw_extras_shear.shear (sw_extras.namespace csiro) [p; VArr (Mat U); v]
  = sw_extras_shear.shear (sw_extras.namespace csiro)
      [VArr (Mat (replicate n <$> ps)); VArr (Mat U); v].
Proof. apply shear_rank1. Qed.

(** X19.  [shear] needs two dimensions: a number for [p] raises
    [ValueError] at line 220, where [p.shape] has nothing to unpack; a
    rank-1 [p] with a [u] that is a number or of rank 1 raises [IndexError]
    at line 218, on [u.shape[1]].  The same holds when [v] is left out. *)
Theorem shear_rank_errors (p u v : value A) (a b : nd A) (e : exn) :
  float_array p = Some a → float_array u = Some b →
  shear_rank_error a b = Some e →
  sw_extras_shear.shear (sw_extras.namespace csiro) [p; u; v] = Raise e
  ∧ sw_extras_shear.shear (sw_extras.namespace csiro) [p; u] = Raise e.
Proof.
  intros Hp Hu He. destruct a as [x|ps|P].
  - injection He as <-. by apply (shear_scalar_p p u v x).
  - assert (e = IndexError ∧ length (nd_shape b) < 2)%nat as [-> Hb].
    { destruct b; cbn in He |- *; split; first [congruence | lia]. }
    by apply (shear_low_rank_u p u v ps b).
  - destruct b; discriminate He.
Qed.

End Shear.

Section ShearReal.
Variable csiro : string → string → list (value R) → result (value R).
Open Scope R_scope.

(** X20.  Over the reals [shear] sees the speed only: negating [u] and [v]
    changes nothing in its result on a grid. *)
Theorem shear_ignores_direction (P U : list (list R)) (z : R) (n : nat) :
  Forall (λ r, length r = n) P → Forall (λ r, length r = n) U →
  length U = length P →
  sw_extras_shear.shear (sw_extras.namespace csiro)
    [VArr (Mat P); VArr (Mat (map (map Ropp) U)); VFloat (- z)]
  = sw_extras_shear.shear (sw_extras.namespace csiro)
      [VArr (Mat P); VArr (Mat U); VFloat z].
Proof.
  intros HP HU Hlen.
  pose proof (shear_2d csiro P U (VFloat z) z n HP HU Hlen eq_refl) as E1.
  pose proof (shear_2d csiro P (map (map Ropp) U) (VFloat (- z)) (- z) n HP
                (rect_map Ropp n U HU)) as E2.
  rewrite length_map in E2. specialize (E2 Hlen eq_refl).
  rewrite E1, E2. unfold grid_shear. rewrite map_map_rows.
  assert (map (map (λ x : R, fsqrt (fadd (fmul (- x) (- x)) (fmul (- z) (- z))))) U
          = map (map (λ x : R, fsqrt (fadd (fmul x x) (fmul z z)))) U) as ->; [|done].
  apply map_ext. intros r. apply map_ext. intros x. cbn. f_equal. ring.
Qed.

(** X21.  Over the reals [shear] sees pressure differences only: adding a
    constant to every pressure of a grid leaves [shr] as it is and adds the
    constant to [p_ave]. *)
Theorem shear_pressure_offset (P U : list (list R)) (v : value R) (z c : R) (n : nat) :
  Forall (λ r, length r = n) P → Forall (λ r, length r = n) U →
  length U = length P →
  float_array v = Some (Sca z) →
  ∃ shr p_ave,
    sw_extras_shear.shear (sw_extras.namespace csiro) [VArr (Mat P); VArr (Mat U); v]
    = Ok (VTuple [VArr (Mat shr); VArr (Mat p_ave)])
    ∧ sw_extras_shear.shear (sw_extras.namespace csiro)
        [VArr (Mat (map (map (λ x, x + c)) P)); VArr (Mat U); v]
      = Ok (VTuple [VArr (Mat shr); VArr (Mat (map (map (λ x, x + c)) p_ave))]).
Proof.
  intros HP HU Hlen Hv. do 2 eexists.
  split; [by apply (shear_2d csiro P U v z n)|].
  rewrite (shear_2d csiro (map (map (λ x, x + c)) P) U v z n);
    [|by apply rect_map|done|by rewrite length_map|done].
  unfold grid_shear, row_means.
  do 3 f_equal; [|f_equal].
  - do 3 f_equal. rewrite diffs_map. apply diffs_ext. intros a b.
    rewrite zip_with_map2. apply zip_with_ext; [|done..]. intros x y. cbn. ring.
  - do 2 f_equal. rewrite length_map, map_zip_with_rows.
    change (map (map (λ x, x + c)) P) with (map (λ x, x + c) <$> P).
    rewrite <- fmap_take, <- fmap_drop, zip_with_fmap_l, zip_with_fmap_r.
    apply zip_with_ext; [|done..]. intros a b.
    rewrite zip_with_map2. apply zip_with_ext; [|done..]. intros x y. cbn.
    cbv [Pos.to_nat Pos.iter_op Init.Nat.add]. field.
Qed.

End ShearReal.

Section ShearWitnesses.
Open Scope R_scope.

Lemma shear_on_grids_witness :
  (∀ v z, float_array v = Some (Sca z) →
     sw_extras_shear.shear (sw_extras.namespace no_extern)
       [VArr (Mat [[0; 0]; [10; 20]]); VArr (Mat [[1; 2]; [3; 4]]); v]
     = Ok (VTuple [VArr (Mat (grid_shear [[0; 0]; [10; 20]] [[1; 2]; [3; 4]] z));
                   VArr (Mat (row_means [[0; 0]; [10; 20]]))]))
  ∧ sw_extras_shear.shear (sw_extras.namespace no_extern)
      [VArr (Mat [[0; 0]; [10; 20]]); VArr (Mat [[1; 2]; [3; 4]])]
    = Ok (VTuple [VArr (Mat (grid_shear [[0; 0]; [10; 20]] [[1; 2]; [3; 4]] (of_Z 0)));
                  VArr (Mat (row_means [[0; 0]; [10; 20]]))])
  ∧ (∀ z, length (grid_shear [[0; 0]; [10; 20]] [[1; 2]; [3; 4]] z)
          = pred (length [[0; 0]; [10; 20]]))
  ∧ length (row_means [[0; 0]; [10; 20]]) = pred (length [[0; 0]; [10; 20]]).
Proof.
  apply (shear_on_grids no_extern [[0; 0]; [10; 20]] [[1; 2]; [3; 4]] 2).
  - repeat constructor.
  - repeat constructor.
  - reflexivity.
Defined.

Lemma shear_spreads_rank1_pressure_witness :
  sw_extras_shear.shear (sw_extras.namespace no_extern)
    [VList [0; 10]; VArr (Mat [[1; 2]; [3; 4]]); VFloat 0]
  = sw_extras_shear.shear (sw_extras.namespace no_extern)
      [VArr (Mat (replicate 2 <$> [0; 10])); VArr (Mat [[1; 2]; [3; 4]]); VFloat 0].
Proof.
  apply (shear_spreads_rank1_pressure no_extern (VList [0; 10]) (VFloat 0) [0; 10]
           [[1; 2]; [3; 4]] 2 eq_refl).
  - repeat constructor.
  - reflexivity.
Defined.

Lemma shear_rank_errors_witness :
  sw_extras_shear.shear (sw_extras.namespace no_extern)
    [VList [0; 10]; VList [1; 2]; VFloat 0] = Raise IndexError
  ∧ sw_extras_shear.shear (sw_extras.namespace no_extern)
      [VList [0; 10]; VList [1; 2]] = Raise IndexError.
Proof.
  apply (shear_rank_errors no_extern (VList [0; 10]) (VList [1; 2]) (VFloat 0)
           (Vec [0; 10]) (Vec [1; 2]) IndexError eq_refl eq_refl eq_refl).
Defined.

Lemma shear_ignores_direction_witness :
  sw_extras_shear.shear (sw_extras.namespace no_extern)
    [VArr (Mat [[0; 0]; [10; 20]]); VArr (Mat (map (map Ropp) [[1; 2]; [3; 4]]));
     VFloat (- 1)]
  = sw_extras_shear.shear (sw_extras.namespace no_extern)
      [VArr (Mat [[0; 0]; [10; 20]]); VArr (Mat [[1; 2]; [3; 4]]); VFloat 1].
Proof.
  apply (shear_ignores_direction no_extern [[0; 0]; [10; 20]] [[1; 2]; [3; 4]] 1 2).
  - repeat constructor.
  - repeat constructor.
  - reflexivity.
Defined.

Lemma shear_pressure_offset_witness :
  ∃ shr p_ave,
    sw_extras_shear.shear (sw_extras.namespace no_extern)
      [VArr (Mat [[0; 0]; [10; 20]]); VArr (Mat [[1; 2]; [3; 4]]); VFloat 0]
    = Ok (VTuple [VArr (Mat shr); VArr (Mat p_ave)])
    ∧ sw_extras_shear.shear (sw_extras.namespace no_extern)
        [VArr (Mat (map (map (λ x, x + 5)) [[0; 0]; [10; 20]]));
         VArr (Mat [[1; 2]; [3; 4]]); VFloat 0]
      = Ok (VTuple [VArr (Mat shr); VArr (Mat (map (map (λ x, x + 5)) p_ave))]).
Proof.
  apply (shear_pressure_offset no_extern [[0; 0]; [10; 20]] [[1; 2]; [3; 4]] (VFloat 0)
           0 5 2).
  - repeat constructor.
  - repeat constructor.
  - reflexivity.
  - reflexivity.
Defined.

End ShearWitnesses.
